(** * ETF holdings monitor: the snapshot differ, the store and the reporter

    A shallow embedding of [src/etf_monitor.py] (class [ETFHoldingsMonitor])
    and the properties its specification states about it.

    Modelling choices, all of them about the Python run time rather than
    about the program:
    - a Python [float] is an IEEE 754 binary64 number, taken from the
      Standard Library's [SpecFloat] (round to nearest, ties to even);
    - text is a byte string; white space and digits are the ASCII ones;
    - a field of a holding row is text.  The program reads the weight only
      through [str(...)], and [float(str(x))] is [x] again for a Python
      float [x], so a numeric weight behaves as the text [str] gives it;
    - a [dict] keyed by ticker is a [gmap string _], a [set] of tickers a
      [gset string]; the order in which Python iterates over a set is not
      specified, it is a parameter ([SetIteration]);
    - the clock ([datetime.now()]) and the data directory are arguments. *)

From Stdlib Require Import ZArith String Ascii List Floats.SpecFloat.
From stdpp Require Import gmap strings list fin_maps pretty sorting.

Open Scope string_scope.

(** ** Python floats *)

Module Float.

Definition float : Type := spec_float.

Definition prec : Z := 53.
Definition emax : Z := 1024.

Definition sub : float -> float -> float := SFsub prec emax.
Definition abs : float -> float := SFabs.
Definition ltb : float -> float -> bool := SFltb.
Definition eqb : float -> float -> bool := SFeqb.
(** [x > y] is [y < x]. *)
Definition gtb (x y : float) : bool := ltb y x.

Definition leb : float -> float -> bool := SFleb.
Definition is_nan (x : float) : bool :=
  match x with S754_nan => true | _ => false end.

Definition zero : float := S754_zero false.
Definition inf (s : bool) : float := S754_infinity s.
Definition nan : float := S754_nan.

(** The float nearest to [(-1)^s * m * 10^e], as [float("<m>e<e>")]
    computes it: an integer is rounded directly, a proper fraction through
    the quotient and remainder of the division by the power of ten. *)
Definition of_decimal (s : bool) (m : N) (e : Z) : float :=
  match m with
  | N0 => S754_zero s
  | Npos p =>
      if (0 <=? e)%Z
      then binary_round prec emax s (p * Z.to_pos (10 ^ e))%positive 0
      else
        let '(q, e', l) :=
          SFdiv_core_binary prec emax (Zpos p) 0 (10 ^ (- e))%Z 0 in
        binary_round_aux prec emax s q e' l
  end.

(** The literal [0.01] of [compare_holdings]. *)
Definition threshold : float := S754_finite false 5764607523034235 (-59).

(** [round(m * 1000 * 2^e)], ties to even: the thousandths that the format
    [.3f] prints. *)
Definition thousandths (m : positive) (e : Z) : Z :=
  if (0 <=? e)%Z then Zpos m * 1000 * 2 ^ e
  else
    let d := (2 ^ (- e))%Z in
    let q := (Zpos m * 1000 / d)%Z in
    let r := (Zpos m * 1000 mod d)%Z in
    match (2 * r ?= d)%Z with
    | Lt => q
    | Eq => if Z.even q then q else (q + 1)%Z
    | Gt => (q + 1)%Z
    end.

Definition pad3 (n : Z) : string :=
  let s := pretty n in
  match String.length s with
  | 0 => "000" | 1 => "00" ++ s | 2 => "0" ++ s | _ => s
  end.

(** [format(x, ".3f")] when [plus] is false, [format(x, "+.3f")] when it is
    true. *)
Definition format_3f (plus : bool) (x : float) : string :=
  let sign (s : bool) := if s then "-" else if plus then "+" else "" in
  match x with
  | S754_nan => sign false ++ "nan"
  | S754_infinity s => sign s ++ "inf"
  | S754_zero s => sign s ++ "0.000"
  | S754_finite s m e =>
      let t := thousandths m e in
      sign s ++ pretty (t / 1000)%Z ++ "." ++ pad3 (t mod 1000)%Z
  end.

End Float.

Abbreviation float := Float.float.

(** ** Python text *)

Module Text.

(** [str.isspace] on an ASCII character. *)
Definition is_space (c : ascii) : bool :=
  let n := N_of_ascii c in
  ((9 <=? n) && (n <=? 13) || (28 <=? n) && (n <=? 32))%N.

Fixpoint lstrip (s : string) : string :=
  match s with
  | String c r => if is_space c then lstrip r else s
  | EmptyString => EmptyString
  end.

Fixpoint rstrip (s : string) : string :=
  match s with
  | String c r =>
      match rstrip r with
      | EmptyString => if is_space c then EmptyString else String c EmptyString
      | r' => String c r'
      end
  | EmptyString => EmptyString
  end.

(** [s.strip()] *)
Definition strip (s : string) : string := rstrip (lstrip s).

(** [s.replace(c, '')]: every occurrence of the character goes. *)
Fixpoint remove (c : ascii) (s : string) : string :=
  match s with
  | String a r => if Ascii.eqb a c then remove c r else String a (remove c r)
  | EmptyString => EmptyString
  end.

Fixpoint lower (s : string) : string :=
  match s with
  | String c r =>
      let n := N_of_ascii c in
      String (if (65 <=? n) && (n <=? 90) then ascii_of_N (n + 32) else c)%N
             (lower r)
  | EmptyString => EmptyString
  end.

Definition digit (c : ascii) : option N :=
  let n := N_of_ascii c in
  if ((48 <=? n) && (n <=? 57))%N then Some (n - 48)%N else None.

(** The longest prefix [digit (["_"] digit)*] of [s], read into the
    accumulator: the value so far, the number of digits read, and the rest
    of the text.  An underscore counts only between two digits. *)
Fixpoint digitpart (after_digit : bool) (acc : N) (n : nat) (s : string)
  : N * nat * string :=
  match s with
  | String c r =>
      match digit c with
      | Some d => digitpart true (10 * acc + d)%N (S n) r
      | None =>
          if after_digit && Ascii.eqb c "_"
          then match r with
               | String c' _ =>
                   match digit c' with
                   | Some _ => digitpart false acc n r
                   | None => (acc, n, s)
                   end
               | EmptyString => (acc, n, s)
               end
          else (acc, n, s)
      end
  | EmptyString => (acc, n, s)
  end.

Definition sign (s : string) : bool * string :=
  match s with
  | String "+" r => (false, r)
  | String "-" r => (true, r)
  | _ => (false, s)
  end.

(** The exponent part, [("e" | "E") [sign] digitpart], which must end the
    text; no exponent part is the exponent 0. *)
Definition exponent (s : string) : option Z :=
  match s with
  | EmptyString => Some 0%Z
  | String c r =>
      if Ascii.eqb c "e" || Ascii.eqb c "E"
      then
        let '(neg, r) := sign r in
        match digitpart false 0 0 r with
        | (_, O, _) => None
        | (e, _, EmptyString) => Some (if neg then - Z.of_N e else Z.of_N e)%Z
        | _ => None
        end
      else None
  end.

(** [float(s)] on text; [None] is [ValueError]. *)
Definition float_of (s : string) : option float :=
  let '(neg, body) := sign (strip s) in
  let low := lower body in
  if String.eqb low "inf" || String.eqb low "infinity"
  then Some (Float.inf neg)
  else if String.eqb low "nan" then Some Float.nan
  else
    let '(i, ni, r) := digitpart false 0 0 body in
    let '(m, nf, r) :=
      match r with
      | String "." r' =>
          let '(m, n, r'') := digitpart false i ni r' in (m, (n - ni)%nat, r'')
      | _ => (i, O, r)
      end in
    match (ni + nf)%nat with
    | O => None
    | _ =>
        match exponent r with
        | Some e => Some (Float.of_decimal neg m (e - Z.of_nat nf))
        | None => None
        end
    end.

(** [s.startswith(p)] and [s.endswith(p)] *)
Fixpoint startswith (p s : string) : bool :=
  match p, s with
  | EmptyString, _ => true
  | String a p', String b s' => Ascii.eqb a b && startswith p' s'
  | String _ _, EmptyString => false
  end.

Definition endswith (p s : string) : bool :=
  (String.length p <=? String.length s)%nat
  && String.eqb
       (substring (String.length s - String.length p) (String.length p) s) p.

(** The line feed, and [s * n]. *)
Definition nl : string := String "010" EmptyString.

Fixpoint times (s : string) (n : nat) : string :=
  match n with
  | O => EmptyString
  | S n' => s ++ times s n'
  end.

End Text.

(** ** Unordered collections

    Python fixes no order for the elements of a [set], nor the operating
    system for the entries of a directory: the program is modelled for
    every order, each element coming once. *)

Class SetIteration := {
  iter : gset string -> list string;
  iter_elements : forall X : gset string, iter X ≡ₚ elements X
}.

(** Two orders to run the program with: the one [elements] gives, and its
    reverse. *)
Definition elements_iteration : SetIteration :=
  {| iter := elements; iter_elements := fun X => reflexivity (elements X) |}.

Definition reverse_iteration : SetIteration :=
  {| iter := fun X => reverse (elements X);
     iter_elements := fun X => reverse_Permutation (elements X) |}.

(** ** [sorted(l, key=..., reverse=True)]

    A stable sort into descending order of the key, by insertion from the
    right: an element goes in front of the first one whose key is not
    greater than its own, hence in front of its equals that came later. *)

Section Sorted.
Context {A K : Type} (key : A -> K) (lt : K -> K -> bool).

Fixpoint insert_reverse (x : A) (l : list A) : list A :=
  match l with
  | [] => [x]
  | y :: l' =>
      if lt (key x) (key y) then y :: insert_reverse x l' else x :: l
  end.

Definition sorted_reverse (l : list A) : list A :=
  foldr insert_reverse [] l.

(** Descending order: no element is below a later one. *)
Definition descending : list A -> Prop :=
  StronglySorted (fun x y => lt (key x) (key y) = false).
End Sorted.

(** ** Data *)

(** A holding row: the fields of one line of the source table. *)
Definition row : Type := list string.

(** The value [extract_info] stores under a ticker. *)
Module Info.
Record t := { name : string; weight : string }.
End Info.

(** The JSON object of a snapshot file; a key may be missing. *)
Module Snapshot.
Record t := {
  date : option string;
  timestamp : option string;
  holdings : option (list row);
  total_count : option nat
}.

(** Truth value of the [dict]: false when it has no key. *)
Definition truthy (d : t) : bool :=
  bool_decide (is_Some (date d)) || bool_decide (is_Some (timestamp d))
  || bool_decide (is_Some (holdings d))
  || bool_decide (is_Some (total_count d)).
End Snapshot.

Module Holding.
Record t := { ticker : string; name : string }.
End Holding.

Module Change.
Record t := {
  ticker : string;
  name : string;
  previous_weight : float;
  current_weight : float;
  change : float
}.

(** [lambda x: abs(x['change'])] *)
Definition key (x : t) : float := Float.abs (change x).
End Change.

Module Comparison.
Record success := {
  date : string;
  previous_date : string;
  total_holdings : nat;
  new_holdings : list Holding.t;
  removed_holdings : list Holding.t;
  weight_changes : list Change.t;
  significant_changes : nat
}.

Inductive t :=
| FirstRun (message : string) (total_holdings : nat)
| Success (r : success).

(** The same result with another [total_holdings]. *)
Definition set_total_holdings (n : nat) (c : t) : t :=
  match c with
  | FirstRun message _ => FirstRun message n
  | Success r =>
      Success {| date := date r; previous_date := previous_date r;
                 total_holdings := n; new_holdings := new_holdings r;
                 removed_holdings := removed_holdings r;
                 weight_changes := weight_changes r;
                 significant_changes := significant_changes r |}
  end.
End Comparison.

(** ** The differ: [compare_holdings]

    A result [None] is an exception that leaves the method ([KeyError] on a
    missing ticker); [compare_holdings_runs] shows there is none. *)

Section Differ.
Context {SI : SetIteration}.

Definition extract_row (info : gmap string Info.t) (h : row)
  : gmap string Info.t :=
  if (3 <=? length h)%nat then
    let ticker := h !!! 0%nat in
    let name := if (1 <? length h)%nat then h !!! 1%nat else "" in
    let weight := if (2 <? length h)%nat then h !!! 2%nat else "0" in
    <[ticker := {| Info.name := name; Info.weight := weight |}]> info
  else info.

Definition extract_info (holdings : list row) : gmap string Info.t :=
  foldl extract_row ∅ holdings.

(** [str(w).replace('%', '').strip()] *)
Definition weight_str (w : string) : string :=
  Text.strip (Text.remove "%" w).

(** [float(s) if s else 0]; [None] is the [ValueError] of [float]. *)
Definition weight_float (s : string) : option float :=
  match s with
  | EmptyString => Some Float.zero
  | _ => Text.float_of s
  end.

(** The [try] statement of the loop over the common tickers, for the
    ticker and its two entries: what it appends to [weight_changes].  A
    [ValueError] of either [float] leaves the statement through
    [continue]. *)
Definition try_weights (ticker : string) (c p : Info.t) : list Change.t :=
  let curr_weight_str := weight_str (Info.weight c) in
  let prev_weight_str := weight_str (Info.weight p) in
  match weight_float curr_weight_str, weight_float prev_weight_str with
  | Some curr_weight, Some prev_weight =>
      if Float.gtb (Float.abs (Float.sub curr_weight prev_weight))
                   Float.threshold
      then [ {| Change.ticker := ticker;
                Change.name := Info.name c;
                Change.previous_weight := prev_weight;
                Change.current_weight := curr_weight;
                Change.change := Float.sub curr_weight prev_weight |} ]
      else []
  | _, _ => []
  end.

(** One turn of that loop. *)
Definition weight_change (current_info previous_info : gmap string Info.t)
    (ticker : string) : option (list Change.t) :=
  c ← current_info !! ticker;
  p ← previous_info !! ticker;
  Some (try_weights ticker c p).

(** The list [weight_changes] when the loop is over, in the order the
    tickers were met. *)
Definition weight_changes_loop
    (current_info previous_info : gmap string Info.t)
    (tickers : list string) : option (list Change.t) :=
  appended ← mapM (weight_change current_info previous_info) tickers;
  Some (concat appended).

(** [[{'ticker': t, 'name': info[t]['name']} for t in tickers]] *)
Definition holdings_of (info : gmap string Info.t) (tickers : list string)
  : option (list Holding.t) :=
  mapM (fun t => i ← info !! t;
                 Some {| Holding.ticker := t; Holding.name := Info.name i |})
       tickers.

Definition compare_holdings (today : string) (current_holdings : list row)
    (previous_data : option Snapshot.t) : option Comparison.t :=
  match previous_data with
  | None =>
      Some (Comparison.FirstRun "No previous data to compare"
                                (length current_holdings))
  | Some data =>
      if negb (Snapshot.truthy data) then
        Some (Comparison.FirstRun "No previous data to compare"
                                  (length current_holdings))
      else
        let previous_holdings := default [] (Snapshot.holdings data) in
        let current_info := extract_info current_holdings in
        let previous_info := extract_info previous_holdings in
        let current_tickers := dom current_info in
        let previous_tickers := dom previous_info in
        let new_holdings := current_tickers ∖ previous_tickers in
        let removed_holdings := previous_tickers ∖ current_tickers in
        weight_changes ←
          weight_changes_loop current_info previous_info
            (iter (current_tickers ∩ previous_tickers));
        new ← holdings_of current_info (iter new_holdings);
        removed ← holdings_of previous_info (iter removed_holdings);
        Some (Comparison.Success
          {| Comparison.date := today;
             Comparison.previous_date :=
               default "Unknown" (Snapshot.date data);
             Comparison.total_holdings := length current_holdings;
             Comparison.new_holdings := new;
             Comparison.removed_holdings := removed;
             Comparison.weight_changes :=
               sorted_reverse Change.key Float.ltb weight_changes;
             Comparison.significant_changes :=
               size new_holdings + size removed_holdings
               + length weight_changes |})
  end.
End Differ.

(** ** The store: [load_previous_holdings]

    The data directory maps a file name to what [json.load] reads from the
    file: a snapshot object, or [None] when opening or parsing it raises. *)

Abbreviation directory := (gmap string (option Snapshot.t)).

Section Store.
Context {SI : SetIteration}.

(** A name that the pattern [holdings_*.json] matches. *)
Definition is_snapshot_name (name : string) : bool :=
  Text.startswith "holdings_" name && Text.endswith ".json" name
  && (String.length "holdings_" + String.length ".json"
      <=? String.length name)%nat.

(** [self.data_dir.glob("holdings_*.json")] *)
Definition glob (data_dir : directory) : list string :=
  filter (fun name => is_snapshot_name name = true) (iter (dom data_dir)).

Definition load_previous_holdings (data_dir : directory)
  : option Snapshot.t :=
  let files := sorted_reverse id String.ltb (glob data_dir) in
  if (length files <? 2)%nat then None
  else
    match files !! 1%nat with
    | Some prev_file =>
        match data_dir !! prev_file with
        | Some (Some data) => Some data
        | _ => None
        end
    | None => None
    end.
End Store.

(** ** The reporter: [generate_report] *)

Module Report.
Import Text.

Definition rule : string := times "=" 70.
Definition thin_rule : string := times "─" 70.

Definition new_title (n : nat) : string :=
  "📈 NEW HOLDINGS ADDED (" ++ pretty n ++ ")".
Definition removed_title (n : nat) : string :=
  "📉 HOLDINGS REMOVED (" ++ pretty n ++ ")".
Definition weight_title : string :=
  "⚖️  SIGNIFICANT WEIGHT CHANGES (Top 10)".
Definition no_changes : string :=
  "✓ No significant changes detected since last update".

Definition holding_lines (mark : string) (holding : Holding.t)
  : list string :=
  ("  " ++ mark ++ " " ++ Holding.ticker holding)
  :: match Holding.name holding with
     | EmptyString => []
     | name => ["    " ++ name]
     end.

(** The first line of an entry of the weight changes block. *)
Definition change_head (change : Change.t) : string :=
  let direction :=
    if Float.gtb (Change.change change) Float.zero then "↑" else "↓" in
  nl ++ "  " ++ direction ++ " " ++ Change.ticker change.

Definition change_lines (change : Change.t) : list string :=
  [change_head change]
  ++ match Change.name change with
     | EmptyString => []
     | name => ["    " ++ name]
     end
  ++ ["    " ++ Float.format_3f false (Change.previous_weight change)
      ++ "% → " ++ Float.format_3f false (Change.current_weight change)
      ++ "% (" ++ Float.format_3f true (Change.change change) ++ "%)"].

Definition more_line (n : nat) : string :=
  nl ++ "  ... and " ++ pretty n ++ " more weight changes".

Definition new_block (l : list Holding.t) : list string :=
  match l with
  | [] => []
  | _ => [nl ++ thin_rule; new_title (length l); thin_rule]
         ++ concat (map (holding_lines "✓") l)
  end.

Definition removed_block (l : list Holding.t) : list string :=
  match l with
  | [] => []
  | _ => [nl ++ thin_rule; removed_title (length l); thin_rule]
         ++ concat (map (holding_lines "✗") l)
  end.

Definition weight_block (l : list Change.t) : list string :=
  match l with
  | [] => []
  | _ => [nl ++ thin_rule; weight_title; thin_rule]
         ++ concat (map change_lines (take 10 l))
         ++ (if (10 <? length l)%nat then [more_line (length l - 10)]
             else [])
  end.

Definition no_changes_block (significant_changes : nat) : list string :=
  if (significant_changes =? 0)%nat
  then [nl ++ thin_rule; no_changes; thin_rule]
  else [].

(** The list [report] when [generate_report] joins it; [generated] is the
    time stamp the method takes from the clock. *)
Definition report_lines (generated : string) (comparison : Comparison.t)
  : list string :=
  [rule; "iShares US Financials ETF (IXG) - Daily Holdings Report"; rule]
  ++ [nl ++ "Report Date: "
      ++ match comparison with
         | Comparison.Success r => Comparison.date r
         | Comparison.FirstRun _ _ => "N/A"
         end]
  ++ match comparison with
     | Comparison.FirstRun _ total_holdings =>
         [nl ++ "Total Holdings: " ++ pretty total_holdings;
          nl ++ "⚠️  This is the first data collection.";
          "No historical data available for comparison.";
          nl ++ "Starting tomorrow, you'll see daily changes!"]
     | Comparison.Success r =>
         ["Comparing with: " ++ Comparison.previous_date r;
          nl ++ "Total Holdings: " ++ pretty (Comparison.total_holdings r);
          "Total Changes Detected: "
          ++ pretty (Comparison.significant_changes r)]
         ++ new_block (Comparison.new_holdings r)
         ++ removed_block (Comparison.removed_holdings r)
         ++ weight_block (Comparison.weight_changes r)
         ++ no_changes_block (Comparison.significant_changes r)
     end
  ++ [nl ++ rule; "Generated: " ++ generated; rule].

Definition generate_report (generated : string) (comparison : Comparison.t)
  : string :=
  String.concat nl (report_lines generated comparison).

(** Reading a report: the lines that open an entry of the weight changes
    block, and the line that counts the entries left out. *)
Definition is_entry_line (line : string) : bool :=
  startswith (nl ++ "  ↑ ") line || startswith (nl ++ "  ↓ ") line.

Definition is_more_line (line : string) : bool :=
  startswith (nl ++ "  ... and ") line.

Definition is_weight_line (line : string) : bool :=
  is_entry_line line || is_more_line line.

Abbreviation weight_lines :=
  (filter (fun line => is_weight_line line = true)).
End Report.

(** ** The parse of a weight in the specification's words

    A second reading of the weight text, after the specification and not
    after the code, to be compared with [weight_str]: "strip a trailing '%'
    and surrounding whitespace". *)

Definition strip_trailing_percent (s : string) : string :=
  if Text.endswith "%" s then substring 0 (String.length s - 1) s else s.

Definition spec_weight_str (w : string) : string :=
  Text.strip (strip_trailing_percent (Text.strip w)).

(** ** A run to try the program on

    After the example of the specification: one holding kept with another
    weight and another name, one added, one removed. *)

Module Sample.
Definition today : string := "2024-01-02".

Definition current : list row :=
  [["AAPL"; "Apple Inc"; "5.02"]; ["GOOG"; "Alphabet"; "3.0"]].

Definition previous : Snapshot.t :=
  {| Snapshot.date := Some "2024-01-01";
     Snapshot.timestamp := Some "2024-01-01T21:30:00";
     Snapshot.holdings :=
       Some [["AAPL"; "Apple Computer"; "5.0"]; ["MSFT"; "Microsoft"; "4.0"]];
     Snapshot.total_count := Some 2 |}.

(** 5.02, 5.0 and their difference as floats. *)
Definition w502 : float := S754_finite false 5652017532349972 (-50).
Definition w500 : float := S754_finite false 5629499534213120 (-50).
Definition delta : float := S754_finite false 5764607523034112 (-58).

Definition aapl : Change.t :=
  {| Change.ticker := "AAPL"; Change.name := "Apple Inc";
     Change.previous_weight := w500; Change.current_weight := w502;
     Change.change := delta |}.

Definition result : Comparison.success :=
  {| Comparison.date := "2024-01-02";
     Comparison.previous_date := "2024-01-01";
     Comparison.total_holdings := 2;
     Comparison.new_holdings :=
       [{| Holding.ticker := "GOOG"; Holding.name := "Alphabet" |}];
     Comparison.removed_holdings :=
       [{| Holding.ticker := "MSFT"; Holding.name := "Microsoft" |}];
     Comparison.weight_changes := [aapl];
     Comparison.significant_changes := 3 |}.
End Sample.

(** A run with a tie: two weights move by half a point, one by two. *)

Module Ties.
Definition current : list row :=
  [["JPM"; "JPMorgan"; "1.5%"]; ["BAC"; "Bank of America"; "2.0%"];
   ["WFC"; "Wells Fargo"; "3.0%"]; ["GS"; "Goldman Sachs"; "1.0%"]].

Definition previous : Snapshot.t :=
  {| Snapshot.date := Some "2024-01-01";
     Snapshot.timestamp := None;
     Snapshot.holdings :=
       Some [["JPM"; "JPMorgan"; "1.0%"]; ["BAC"; "Bank of America"; "2.5%"];
             ["WFC"; "Wells Fargo"; "1.0%"]; ["GS"; "Goldman Sachs"; "1.0%"]];
     Snapshot.total_count := Some 4 |}.

(** The result of the run, for an order of iteration. *)
Definition result (SI : SetIteration) : Comparison.success :=
  match compare_holdings Sample.today current (Some previous) with
  | Some (Comparison.Success r) => r
  | _ => Sample.result
  end.
End Ties.

(** A data directory after three days: the file of the day, the one of the
    day before, an older one that cannot be read, and a report. *)

Module Dir.
Definition day1 : Snapshot.t :=
  {| Snapshot.date := Some "2024-01-01";
     Snapshot.timestamp := Some "2024-01-01T21:30:00";
     Snapshot.holdings :=
       Some [["AAPL"; "Apple Computer"; "5.0"]; ["MSFT"; "Microsoft"; "4.0"]];
     Snapshot.total_count := Some 2 |}.

Definition day2 : Snapshot.t :=
  {| Snapshot.date := Some "2024-01-02";
     Snapshot.timestamp := Some "2024-01-02T21:30:00";
     Snapshot.holdings :=
       Some [["AAPL"; "Apple Inc"; "5.02"]; ["GOOG"; "Alphabet"; "3.0"]];
     Snapshot.total_count := Some 2 |}.

Definition three_days : directory :=
  list_to_map [("holdings_2023-12-31.json", None);
               ("holdings_2024-01-01.json", Some day1);
               ("holdings_2024-01-02.json", Some day2);
               ("report_2024-01-02.txt", None)].

(** The same with the file of the day before damaged. *)
Definition damaged : directory :=
  <["holdings_2024-01-01.json" := None]> three_days.

(** The first day: one snapshot file. *)
Definition first_day : directory :=
  list_to_map [("holdings_2024-01-02.json", Some day2);
               ("report_2024-01-02.txt", None)].
End Dir.

(** A run with twelve weight changes: ticker [Tn] goes from [n] to
    [2n]. *)

Module Dozen.
Definition rows (f : nat -> nat) : list row :=
  map (fun n => ["T" ++ pretty n; "Holding " ++ pretty n; pretty (f n) ++ "%"])
      (seq 1 12).

Definition current : list row := rows (fun n => 2 * n).

Definition previous : Snapshot.t :=
  {| Snapshot.date := Some "2024-01-01";
     Snapshot.timestamp := None;
     Snapshot.holdings := Some (rows (fun n => n));
     Snapshot.total_count := Some 12 |}.

Definition result : Comparison.success :=
  match compare_holdings (SI := elements_iteration) Sample.today current
          (Some previous) with
  | Some (Comparison.Success r) => r
  | _ => Sample.result
  end.
End Dozen.

(** ** The fetcher: [get_holdings_data]

    What [requests.get] and [response.json()] give is the input: the
    request raises, or there is a reply with its status code, whose body is
    not a JSON object ([json()] raises, or [data.get] does), or is one, with
    or without the key ['aaData'].  What the method prints is left out. *)

Module Http.
Inductive body :=
| NotAnObject
| Object (aaData : option (list row)).

Inductive response :=
| Raised
| Reply (status_code : nat) (b : body).
End Http.

Definition get_holdings_data (response : Http.response)
  : option (list row) :=
  match response with
  | Http.Raised => None
  | Http.Reply status_code b =>
      if (status_code =? 200)%nat then
        match b with
        | Http.NotAnObject => None
        | Http.Object aaData =>
            let holdings := default [] aaData in
            match holdings with
            | [] => None
            | _ => Some holdings
            end
        end
      else None
  end.

(** ** The files of the data directory

    A file is a JSON document, the object of a snapshot, or text that is no
    JSON document, as a report is.  [listing] is the directory as
    [load_previous_holdings] sees it. *)

Module File.
Inductive t :=
| Json (data : Snapshot.t)
| Text (content : string).

(** [json.load] on the open file; [None] when it raises. *)
Definition load (f : t) : option Snapshot.t :=
  match f with
  | Json data => Some data
  | Text _ => None
  end.
End File.

Abbreviation files := (gmap string File.t).

Definition listing (fs : files) : directory := File.load <$> fs.

(** The readings of [datetime.now()] in one run, in the order the run takes
    them: two in [save_holdings], one in [compare_holdings], one in
    [generate_report], one for the name of the report file. *)
Module Clock.
Record t := {
  save_date : string;
  save_timestamp : string;
  compare_date : string;
  generated : string;
  report_date : string
}.
End Clock.

(** [f"holdings_{date_str}.json"] and [f"report_{date_str}.txt"] *)
Definition holdings_file (date_str : string) : string :=
  "holdings_" ++ date_str ++ ".json".

Definition report_file (date_str : string) : string :=
  "report_" ++ date_str ++ ".txt".

(** ** The store: [save_holdings] *)

Definition save_holdings (date_str timestamp : string)
    (holdings : list row) (fs : files) : option string * files :=
  match holdings with
  | [] => (None, fs)
  | _ =>
      let filename := holdings_file date_str in
      let data :=
        {| Snapshot.date := Some date_str;
           Snapshot.timestamp := Some timestamp;
           Snapshot.holdings := Some holdings;
           Snapshot.total_count := Some (length holdings) |} in
      (Some filename, <[filename := File.Json data]> fs)
  end.

(** ** The run: [run_daily_check]

    The result is what the method returns and the files it leaves; [None]
    is an exception that leaves the method.  What it prints is left out. *)

Section Run.
Context {SI : SetIteration}.

Definition run_daily_check (clock : Clock.t) (response : Http.response)
    (fs : files) : option (option Comparison.t * files) :=
  match get_holdings_data response with
  | None | Some [] => Some (None, fs)
  | Some current_holdings =>
      let fs := (save_holdings (Clock.save_date clock)
                   (Clock.save_timestamp clock) current_holdings fs).2 in
      let previous_data := load_previous_holdings (listing fs) in
      comparison ←
        compare_holdings (Clock.compare_date clock) current_holdings
          previous_data;
      let report := Report.generate_report (Clock.generated clock)
                      comparison in
      Some (Some comparison,
            <[report_file (Clock.report_date clock) := File.Text report]> fs)
  end.
End Run.

(** ** Reading the rows: the ticker a row is filed under

    The key [extract_info] gives a row, none for a row it skips: a
    definition for the statements, not of the program. *)

Definition row_ticker (h : row) : option string :=
  if (3 <=? length h)%nat then h !! 0%nat else None.

(** ** Reading two comparisons: an entry turned round

    [e'] is [e] seen from the other side: the same ticker, the two weights
    exchanged, the opposite change.  A definition for the statements. *)

Definition turned (e e' : Change.t) : Prop :=
  Change.ticker e' = Change.ticker e
  /\ Change.previous_weight e' = Change.current_weight e
  /\ Change.current_weight e' = Change.previous_weight e
  /\ Change.change e' = SFopp (Change.change e).

(** ** Reading the loops: what a ticker gives

    The entries the loop over the common tickers appends for a ticker, and
    the entry of a list of holdings for a ticker, as functions of the
    ticker: definitions for the statements. *)

Definition entries_of (ci pi : gmap string Info.t) (t : string)
  : list Change.t :=
  match ci !! t, pi !! t with
  | Some c, Some p => try_weights t c p
  | _, _ => []
  end.

Definition holding_of (info : gmap string Info.t) (t : string) : Holding.t :=
  {| Holding.ticker := t;
     Holding.name := from_option Info.name "" (info !! t) |}.

(** ** Reading the store: the file that is opened

    The name [load_previous_holdings] takes from the sorted list, when
    there is one: a definition for the statements, not of the program. *)

Section PreviousFile.
Context {SI : SetIteration}.

Definition previous_file (data_dir : directory) : option string :=
  let files := sorted_reverse id String.ltb (glob data_dir) in
  if (length files <? 2)%nat then None else files !! 1%nat.
End PreviousFile.

(** ** Reading a report: the holdings it lists

    The lines that name a new holding and a removed one. *)

Definition is_new_line (line : string) : bool :=
  Text.startswith "  ✓ " line.

Definition is_removed_line (line : string) : bool :=
  Text.startswith "  ✗ " line.

Definition new_line (holding : Holding.t) : string :=
  "  ✓ " ++ Holding.ticker holding.

Definition removed_line (holding : Holding.t) : string :=
  "  ✗ " ++ Holding.ticker holding.

(** Two readings of the clock on one day, and a directory with the
    snapshot of the day before. *)

Module Day.
Definition evening : Clock.t :=
  {| Clock.save_date := "2024-01-02";
     Clock.save_timestamp := "2024-01-02T21:30:00";
     Clock.compare_date := "2024-01-02";
     Clock.generated := "2024-01-02 21:30:01 UTC";
     Clock.report_date := "2024-01-02" |}.

Definition night : Clock.t :=
  {| Clock.save_date := "2024-01-02";
     Clock.save_timestamp := "2024-01-02T23:59:59";
     Clock.compare_date := "2024-01-02";
     Clock.generated := "2024-01-03 00:00:01 UTC";
     Clock.report_date := "2024-01-03" |}.

Definition reply : Http.response :=
  Http.Reply 200 (Http.Object (Some Sample.current)).

Definition before : files :=
  <["holdings_2024-01-01.json" := File.Json Sample.previous]> ∅.

(** The same with a file that is no dated snapshot. *)
Definition with_latest : files :=
  <["holdings_latest.json" := File.Json Sample.previous]> before.
End Day.

(** * Properties *)

Open Scope list_scope.

(** ** Order of the floats *)

Module FloatFacts.
Import Float.

Ltac cases :=
  repeat match goal with
    | s : bool |- _ => destruct s
    | H : context [Z.compare ?x ?y] |- _ =>
        destruct (Z.compare_spec x y); subst
    | |- context [Z.compare ?x ?y] => destruct (Z.compare_spec x y); subst
    | H : context [Pos.compare_cont Eq ?x ?y] |- _ =>
        change (Pos.compare_cont Eq x y) with (Pos.compare x y) in H;
        destruct (Pos.compare_spec x y); subst
    | |- context [Pos.compare_cont Eq ?x ?y] =>
        change (Pos.compare_cont Eq x y) with (Pos.compare x y);
        destruct (Pos.compare_spec x y); subst
    end;
  simpl in *; try discriminate; try reflexivity; try lia.

Lemma float_ltb_asym (a b : float) : ltb a b = true -> ltb b a = false.
Proof.
  unfold ltb, SFltb; destruct a, b; simpl; try discriminate;
    try reflexivity; cases.
Qed.

(** Among numbers, "not less than" is transitive. *)
Lemma float_geb_trans (a b c : float) :
  is_nan a = false -> is_nan b = false -> is_nan c = false ->
  ltb a b = false -> ltb b c = false -> ltb a c = false.
Proof.
  unfold ltb, SFltb; destruct a, b, c; simpl; try discriminate;
    try reflexivity; intros _ _ _; cases.
Qed.

Lemma float_not_ltb_leb (a b : float) :
  is_nan a = false -> is_nan b = false -> ltb a b = false -> leb b a = true.
Proof.
  unfold ltb, leb, SFltb, SFleb; destruct a, b; simpl; try discriminate;
    try reflexivity; intros _ _; cases.
Qed.

(** Two floats equal to a third are not one below the other. *)
Lemma float_eqb_not_ltb (a b k : float) :
  eqb a k = true -> eqb b k = true -> ltb a b = false.
Proof.
  unfold ltb, eqb, SFltb, SFeqb; destruct a, b, k; simpl; try discriminate;
    try reflexivity; cases.
Qed.

Lemma float_gtb_not_nan (x y : float) : gtb x y = true -> is_nan x = false.
Proof. destruct x, y; simpl; try discriminate; reflexivity. Qed.

(** [x - x] is a zero or not a number: never above the threshold. *)
Lemma float_sub_diag (x : float) : gtb (abs (sub x x)) threshold = false.
Proof.
  destruct x as [[]|[]| |s m e]; try reflexivity.
  unfold sub, SFsub. rewrite Z.sub_diag. reflexivity.
Qed.
End FloatFacts.

(** [float], the subtraction and the formats on some texts, as Python
    gives them. *)
Example float_of_examples :
  map Text.float_of
    ["5.02"; " 5.0 "; "1_000.5"; "-.5e1"; "-Infinity"; "NaN"; "";
     "1__0"; "1e"; "0x10"; "1e400"; "5e-324"]
  = [Some Sample.w502; Some Sample.w500;
     Some (S754_finite false 8800491068719104 (-43));
     Some (S754_finite true 5629499534213120 (-50));
     Some (S754_infinity true); Some S754_nan; None; None; None; None;
     Some (S754_infinity false); Some (S754_finite false 1 (-1074))].
Proof. vm_compute. reflexivity. Qed.

Example format_examples :
  Float.sub Sample.w502 Sample.w500 = Sample.delta
  /\ map (Float.format_3f true)
       [Sample.delta; S754_finite true 4503599627370496 (-53);
        S754_zero true; S754_infinity false]
     = ["+0.020"; "-0.500"; "-0.000"; "+inf"]
  /\ (Float.format_3f false <$> Text.float_of "0.0625") = Some "0.062"
  /\ (Float.format_3f false <$> Text.float_of "0.1875") = Some "0.188"
  /\ (Float.format_3f false <$> Text.float_of "1234.5678") = Some "1234.568".
Proof. vm_compute. done. Qed.

(** ** [sorted_reverse] sorts, and is stable *)

Section SortedFacts.
Context {A K : Type} (key : A -> K) (lt : K -> K -> bool).
Context (good : K -> Prop).
Hypothesis lt_asym : forall a b, lt a b = true -> lt b a = false.
Hypothesis ge_trans : forall a b c, good a -> good b -> good c ->
  lt a b = false -> lt b c = false -> lt a c = false.

Lemma insert_reverse_perm (x : A) (l : list A) :
  insert_reverse key lt x l ≡ₚ x :: l.
Proof.
  induction l as [|y l IH]; simpl; [done|].
  destruct (lt (key x) (key y)); [|done].
  rewrite IH. apply Permutation_swap.
Qed.

Lemma sorted_reverse_perm (l : list A) : sorted_reverse key lt l ≡ₚ l.
Proof.
  induction l as [|x l IH]; simpl; [done|].
  rewrite insert_reverse_perm. by f_equiv.
Qed.

Lemma insert_reverse_descending (x : A) (l : list A) :
  good (key x) -> Forall (fun y => good (key y)) l ->
  descending key lt l -> descending key lt (insert_reverse key lt x l).
Proof.
  intros Hx Hl Hs. induction Hs as [|y l Hs IH Hy]; simpl.
  - repeat constructor.
  - apply Forall_cons in Hl as [Hgy Hl].
    destruct (lt (key x) (key y)) eqn:E.
    + constructor; [by apply IH|].
      rewrite insert_reverse_perm. constructor; [by apply lt_asym|done].
    + constructor; [by constructor|].
      constructor; [done|].
      rewrite Forall_forall in Hy, Hl. apply Forall_forall. intros z Hz.
      apply (ge_trans _ (key y)); auto.
Qed.

Lemma sorted_reverse_descending (l : list A) :
  Forall (fun y => good (key y)) l ->
  descending key lt (sorted_reverse key lt l).
Proof.
  induction 1 as [|x l Hx Hl IH]; simpl; [constructor|].
  apply insert_reverse_descending; [done| |done].
  by rewrite sorted_reverse_perm.
Qed.

(** The elements of a class that [lt] does not separate stay in the order
    they had. *)
Section Stable.
Context (P : A -> Prop) `{!forall x, Decision (P x)}.
Hypothesis class : forall x y, P x -> P y -> lt (key x) (key y) = false.

Lemma insert_reverse_stable (x : A) (l : list A) :
  filter P (insert_reverse key lt x l) = filter P (x :: l).
Proof.
  induction l as [|y l IH]; simpl; [done|].
  destruct (lt (key x) (key y)) eqn:E; [|done].
  rewrite !filter_cons in *. rewrite IH.
  destruct (decide (P x)) as [Px|], (decide (P y)) as [Py|]; try done.
  rewrite (class x y Px Py) in E. discriminate.
Qed.

Lemma sorted_reverse_stable (l : list A) :
  filter P (sorted_reverse key lt l) = filter P l.
Proof.
  induction l as [|x l IH]; simpl; [done|].
  rewrite insert_reverse_stable, !filter_cons. by rewrite IH.
Qed.
End Stable.
End SortedFacts.

(** ** Order of the file names *)

Module StringFacts.
Lemma ascii_compare_lt (a b : ascii) :
  Ascii.compare a b = Lt <-> (N_of_ascii a < N_of_ascii b)%N.
Proof. unfold Ascii.compare. by rewrite N.compare_lt_iff. Qed.

Lemma ascii_compare_eq (a b : ascii) : Ascii.compare a b = Eq <-> a = b.
Proof.
  unfold Ascii.compare. rewrite N.compare_eq_iff. split; [|by intros ->].
  intros E. by rewrite <- (ascii_N_embedding a), <- (ascii_N_embedding b), E.
Qed.

Lemma string_compare_lt_trans (a b c : string) :
  String.compare a b = Lt -> String.compare b c = Lt ->
  String.compare a c = Lt.
Proof.
  revert b c. induction a as [|x a IH]; intros [|y b] [|z c]; simpl;
    try done.
  destruct (Ascii.compare x y) eqn:Exy; try done;
    destruct (Ascii.compare y z) eqn:Eyz; try done; intros Hab Hbc.
  - apply ascii_compare_eq in Exy as ->. rewrite Eyz. eauto.
  - apply ascii_compare_eq in Exy as ->. by rewrite Eyz.
  - apply ascii_compare_eq in Eyz as <-. by rewrite Exy.
  - apply ascii_compare_lt in Exy. apply ascii_compare_lt in Eyz.
    assert (Ascii.compare x z = Lt) as ->; [|done].
    apply ascii_compare_lt. by etrans.
Qed.

Lemma string_ltb_lt (a b : string) : String.ltb a b = true <-> String.compare a b = Lt.
Proof. unfold String.ltb. destruct (String.compare a b); naive_solver. Qed.

Lemma string_ltb_asym (a b : string) :
  String.ltb a b = true -> String.ltb b a = false.
Proof.
  unfold String.ltb. rewrite (String.compare_antisym b a).
  by destruct (String.compare a b).
Qed.

Lemma string_not_ltb (a b : string) :
  String.ltb a b = false -> a = b \/ String.ltb b a = true.
Proof.
  unfold String.ltb. rewrite (String.compare_antisym b a).
  destruct (String.compare a b) eqn:E; try done; [|by right].
  left. by apply String.compare_eq_iff.
Qed.

Lemma string_geb_trans (a b c : string) :
  String.ltb a b = false -> String.ltb b c = false -> String.ltb a c = false.
Proof.
  intros H1 H2.
  destruct (string_not_ltb _ _ H1) as [->|Hba]; [done|].
  destruct (string_not_ltb _ _ H2) as [->|Hcb]; [done|].
  apply string_ltb_asym, string_ltb_lt. apply string_ltb_lt in Hba, Hcb.
  by apply (string_compare_lt_trans _ b).
Qed.
End StringFacts.

(** ** Iteration over a set *)

Section IterationFacts.
Context {SI : SetIteration}.

Lemma elem_of_iter (X : gset string) (t : string) : t ∈ iter X <-> t ∈ X.
Proof. by rewrite iter_elements, elem_of_elements. Qed.

Lemma NoDup_iter (X : gset string) : NoDup (iter X).
Proof. rewrite iter_elements. apply NoDup_elements. Qed.

Lemma length_iter (X : gset string) : length (iter X) = size X.
Proof. by rewrite iter_elements. Qed.

Lemma iter_empty : iter ∅ = [].
Proof.
  apply Permutation_nil_r. by rewrite iter_elements, elements_empty.
Qed.
End IterationFacts.

(** ** The differ runs to its end *)

Section DifferFacts.
Context {SI : SetIteration}.

Lemma holdings_of_spec (info : gmap string Info.t) (tickers : list string) :
  (forall t, t ∈ tickers -> is_Some (info !! t)) ->
  exists hs, holdings_of info tickers = Some hs
    /\ Forall2 (fun t h => Holding.ticker h = t
                  /\ exists i, info !! t = Some i
                       /\ Holding.name h = Info.name i) tickers hs.
Proof.
  induction tickers as [|t l IH]; intros Hl.
  - exists []. split; [done|constructor].
  - destruct IH as (hs & Hhs & Hall); [intros; apply Hl; by right|].
    destruct (Hl t) as [i Hi]; [by left|].
    exists ({| Holding.ticker := t; Holding.name := Info.name i |} :: hs).
    split; [|constructor; eauto].
    apply mapM_Some_2. constructor; [by rewrite Hi|by apply mapM_Some_1].
Qed.

Lemma elem_of_try_weights (e : Change.t) (t : string) (c p : Info.t) :
  e ∈ try_weights t c p <->
  exists cw pw,
    weight_float (weight_str (Info.weight c)) = Some cw
    /\ weight_float (weight_str (Info.weight p)) = Some pw
    /\ Float.gtb (Float.abs (Float.sub cw pw)) Float.threshold = true
    /\ e = {| Change.ticker := t; Change.name := Info.name c;
              Change.previous_weight := pw; Change.current_weight := cw;
              Change.change := Float.sub cw pw |}.
Proof.
  unfold try_weights.
  destruct (weight_float (weight_str (Info.weight c))) as [cw|];
    destruct (weight_float (weight_str (Info.weight p))) as [pw|];
    try (rewrite elem_of_nil; split; [done|];
         by intros (? & ? & ? & ? & _)).
  destruct (Float.gtb _ _) eqn:E.
  - rewrite list_elem_of_singleton. split.
    + intros ->. by exists cw, pw.
    + intros (? & ? & [= <-] & [= <-] & _ & ->). done.
  - rewrite elem_of_nil. split; [done|].
    intros (? & ? & [= <-] & [= <-] & E' & _). congruence.
Qed.

Lemma weight_change_Some (ci pi : gmap string Info.t) (t : string)
    (c p : Info.t) :
  ci !! t = Some c -> pi !! t = Some p ->
  weight_change ci pi t = Some (try_weights t c p).
Proof. unfold weight_change. by intros -> ->. Qed.

Lemma weight_changes_loop_spec (ci pi : gmap string Info.t)
    (tickers : list string) :
  (forall t, t ∈ tickers -> is_Some (ci !! t) /\ is_Some (pi !! t)) ->
  exists wc, weight_changes_loop ci pi tickers = Some wc
    /\ forall e, e ∈ wc <->
         exists t c p, t ∈ tickers /\ ci !! t = Some c /\ pi !! t = Some p
                       /\ e ∈ try_weights t c p.
Proof.
  unfold weight_changes_loop.
  induction tickers as [|t l IH]; intros Hl.
  - exists []. split; [done|]. intros e. rewrite elem_of_nil.
    split; [done|]. intros (t & c & p & Ht & _). by apply elem_of_nil in Ht.
  - destruct IH as (wc & Hwc & Hall); [intros; apply Hl; by right|].
    destruct (Hl t) as [[c Hc] [p Hp]]; [by left|].
    destruct (mapM _ l) as [k|] eqn:Hk; [|done].
    simpl in Hwc. injection Hwc as <-.
    exists (try_weights t c p ++ concat k).
    rewrite (mapM_Some_2 _ (t :: l) (try_weights t c p :: k)).
    2:{ constructor; [by apply weight_change_Some|by apply mapM_Some_1]. }
    split; [done|]. intros e. rewrite elem_of_app, Hall. split.
    + intros [He|(t' & c' & p' & Ht' & ?)].
      * exists t, c, p. split; [by left|done].
      * exists t', c', p'. split; [by right|done].
    + intros (t' & c' & p' & [->|Ht']%elem_of_cons & Hc' & Hp' & He).
      * left. congruence.
      * right. eauto 10.
Qed.
Lemma compare_holdings_runs (today : string) (cur : list row)
    (data : Snapshot.t) :
  Snapshot.truthy data = true ->
  let ci := extract_info cur in
  let pi := extract_info (default [] (Snapshot.holdings data)) in
  exists wc new removed,
    weight_changes_loop ci pi (iter (dom ci ∩ dom pi)) = Some wc
    /\ holdings_of ci (iter (dom ci ∖ dom pi)) = Some new
    /\ holdings_of pi (iter (dom pi ∖ dom ci)) = Some removed
    /\ compare_holdings today cur (Some data)
       = Some (Comparison.Success
           {| Comparison.date := today;
              Comparison.previous_date :=
                default "Unknown" (Snapshot.date data);
              Comparison.total_holdings := length cur;
              Comparison.new_holdings := new;
              Comparison.removed_holdings := removed;
              Comparison.weight_changes :=
                sorted_reverse Change.key Float.ltb wc;
              Comparison.significant_changes :=
                size (dom ci ∖ dom pi) + size (dom pi ∖ dom ci)
                + length wc |}).
Proof.
  intros Ht ci pi.
  destruct (weight_changes_loop_spec ci pi (iter (dom ci ∩ dom pi)))
    as (wc & Hwc & _).
  { intros t [? ?]%elem_of_iter%elem_of_intersection.
    by rewrite <- !elem_of_dom. }
  destruct (holdings_of_spec ci (iter (dom ci ∖ dom pi))) as (new & Hnew & _).
  { intros t [? _]%elem_of_iter%elem_of_difference. by apply elem_of_dom. }
  destruct (holdings_of_spec pi (iter (dom pi ∖ dom ci))) as (rem & Hrem & _).
  { intros t [? _]%elem_of_iter%elem_of_difference. by apply elem_of_dom. }
  exists wc, new, rem. repeat split; try done.
  unfold compare_holdings. rewrite Ht. simpl.
  fold ci pi. rewrite Hwc. simpl. rewrite Hnew. simpl. rewrite Hrem. done.
Qed.

Lemma compare_holdings_first_run (today : string) (cur : list row)
    (prev : option Snapshot.t) :
  (forall data, prev = Some data -> Snapshot.truthy data = false) ->
  compare_holdings today cur prev
  = Some (Comparison.FirstRun "No previous data to compare" (length cur)).
Proof.
  intros Hp. destruct prev as [data|]; [|done].
  unfold compare_holdings. by rewrite (Hp data).
Qed.

Lemma compare_holdings_success_inv (today : string) (cur : list row)
    (prev : option Snapshot.t) (r : Comparison.success) :
  compare_holdings today cur prev = Some (Comparison.Success r) ->
  exists data, prev = Some data /\ Snapshot.truthy data = true.
Proof.
  destruct prev as [data|]; [|done].
  destruct (Snapshot.truthy data) eqn:Ht; [eauto|].
  by rewrite (compare_holdings_first_run _ _ (Some data)); [|congruence].
Qed.
End DifferFacts.

(** ** The ticker mapping *)

Section ExtractFacts.

Lemma extract_info_app (l1 l2 : list row) :
  extract_info (l1 ++ l2) = foldl extract_row (extract_info l1) l2.
Proof. apply foldl_app. Qed.

Lemma extract_row_short (info : gmap string Info.t) (h : row) :
  length h < 3 -> extract_row info h = info.
Proof.
  intros Hh. unfold extract_row.
  by destruct (Nat.leb_spec 3 (length h)); [lia|].
Qed.

Lemma extract_row_long (info : gmap string Info.t)
    (ticker name weight : string) (rest : list string) :
  extract_row info (ticker :: name :: weight :: rest)
  = <[ticker := {| Info.name := name; Info.weight := weight |}]> info.
Proof. done. Qed.

Lemma extract_rows_other (info : gmap string Info.t) (l : list row)
    (t : string) :
  (forall h, h ∈ l -> 3 <= length h -> h !! 0 <> Some t) ->
  foldl extract_row info l !! t = info !! t.
Proof.
  revert info. induction l as [|h l IH]; intros info Hl; [done|].
  simpl. rewrite IH by (intros; apply Hl; [by right|done]).
  destruct (Nat.lt_ge_cases (length h) 3) as [Hs|Hs].
  - by rewrite extract_row_short.
  - specialize (Hl h (list_elem_of_here _ _) Hs).
    destruct h as [|ticker [|name [|weight rest]]]; simpl in Hs; try lia.
    rewrite extract_row_long, lookup_insert_ne; [done|].
    simpl in Hl. congruence.
Qed.
End ExtractFacts.

(** ** Claims on the ticker mapping *)

(** C8.  Rows are folded into the mapping from left to right, and of the
    rows of at least three fields that share a ticker the last one gives
    the name and the weight the mapping keeps. *)
Theorem last_row_wins (l1 l2 : list row) (ticker name weight : string)
    (rest : list string) :
  (forall h, h ∈ l2 -> 3 <= length h -> h !! 0 <> Some ticker) ->
  extract_info (l1 ++ (ticker :: name :: weight :: rest) :: l2) !! ticker
  = Some {| Info.name := name; Info.weight := weight |}
  /\ forall l h, extract_info (l ++ [h]) = extract_row (extract_info l) h.
Proof.
  intros Hl2. split.
  - rewrite extract_info_app. simpl. rewrite extract_rows_other by done.
    rewrite extract_row_long. apply lookup_insert_eq.
  - intros l h. by rewrite extract_info_app.
Qed.

Lemma last_row_wins_witness :
  extract_info ([["JPM"; "Old name"; "1.0"]]
                ++ ["JPM"; "JPMorgan"; "2.5%"; "Financials"]
                :: [["BAC"; "Bank of America"; "3.0"]; ["JPM"; "short"]])
    !! "JPM"
  = Some {| Info.name := "JPMorgan"; Info.weight := "2.5%" |}
  /\ forall l h, extract_info (l ++ [h]) = extract_row (extract_info l) h.
Proof.
  apply (last_row_wins [["JPM"; "Old name"; "1.0"]]
           [["BAC"; "Bank of America"; "3.0"]; ["JPM"; "short"]]).
  intros h Hh Hlen.
  apply elem_of_cons in Hh as [->|Hh]; [discriminate|].
  apply list_elem_of_singleton in Hh as ->. simpl in Hlen. lia.
Defined.

Section SkippedRows.
Context {SI : SetIteration}.

Lemma extract_info_short (l1 l2 : list row) (h : row) :
  length h < 3 -> extract_info (l1 ++ h :: l2) = extract_info (l1 ++ l2).
Proof.
  intros Hh. rewrite !extract_info_app. simpl.
  by rewrite extract_row_short.
Qed.

(** C4, as the code has it.  A row of fewer than three fields adds nothing
    to the ticker mapping.  Among the current rows it changes nothing of
    the result but [total_holdings], which is the number of the current
    rows and counts it; among the previous rows it changes nothing at
    all. *)
Theorem short_row_skipped (l1 l2 : list row) (h : row) :
  length h < 3 ->
  extract_info (l1 ++ h :: l2) = extract_info (l1 ++ l2)
  /\ (forall today prev,
        compare_holdings today (l1 ++ h :: l2) prev
        = Comparison.set_total_holdings (length (l1 ++ h :: l2))
            <$> compare_holdings today (l1 ++ l2) prev)
  /\ (forall today cur d ts tc,
        compare_holdings today cur
          (Some {| Snapshot.date := d; Snapshot.timestamp := ts;
                   Snapshot.holdings := Some (l1 ++ h :: l2);
                   Snapshot.total_count := tc |})
        = compare_holdings today cur
            (Some {| Snapshot.date := d; Snapshot.timestamp := ts;
                     Snapshot.holdings := Some (l1 ++ l2);
                     Snapshot.total_count := tc |})).
Proof.
  intros Hh. pose proof (extract_info_short l1 l2 h Hh) as E.
  split; [done|]. split.
  - intros today [data|]; [|done]. unfold compare_holdings.
    rewrite E. destruct (Snapshot.truthy data); [|done]. simpl.
    destruct (weight_changes_loop _ _ _) as [wc|]; simpl; [|done].
    destruct (holdings_of (extract_info (l1 ++ l2)) _) as [new|]; simpl;
      [|done].
    by destruct (holdings_of _ _) as [removed|].
  - intros today cur d ts tc. unfold compare_holdings. simpl.
    by rewrite E.
Qed.
End SkippedRows.

Lemma short_row_skipped_witness :
  length ["JPM"; "JPMorgan"] < 3
  /\ compare_holdings (SI := elements_iteration) "2024-01-02"
       ([["BAC"; "Bank of America"; "3.0"]] ++ ["JPM"; "JPMorgan"] :: [])
       (Some {| Snapshot.date := Some "2024-01-01";
                Snapshot.timestamp := None;
                Snapshot.holdings := Some [["BAC"; "Bank of America"; "3.0"]];
                Snapshot.total_count := None |})
     = Some (Comparison.Success
         {| Comparison.date := "2024-01-02";
            Comparison.previous_date := "2024-01-01";
            Comparison.total_holdings := 2;
            Comparison.new_holdings := [];
            Comparison.removed_holdings := [];
            Comparison.weight_changes := [];
            Comparison.significant_changes := 0 |}).
Proof.
  split; [simpl; lia|].
  destruct (short_row_skipped (SI := elements_iteration)
              [["BAC"; "Bank of America"; "3.0"]] [] ["JPM"; "JPMorgan"])
    as (_ & -> & _); [simpl; lia|].
  vm_compute. reflexivity.
Defined.

(** C4, as the specification states it, fails: the row is counted.  With a
    short row among the current rows the result is not the one without
    it. *)
Lemma short_row_counted :
  ~ (forall (l1 l2 : list row) (h : row) today prev,
       length h < 3 ->
       compare_holdings (SI := elements_iteration) today
         (l1 ++ h :: l2) prev
       = compare_holdings (SI := elements_iteration) today
           (l1 ++ l2) prev).
Proof.
  intros Hall.
  specialize (Hall [["BAC"; "Bank of America"; "3.0"]] []
                ["JPM"; "JPMorgan"] "2024-01-02"
                (Some {| Snapshot.date := Some "2024-01-01";
                         Snapshot.timestamp := None;
                         Snapshot.holdings :=
                           Some [["BAC"; "Bank of America"; "3.0"]];
                         Snapshot.total_count := None |})).
  specialize (Hall ltac:(simpl; lia)). vm_compute in Hall. discriminate.
Qed.

(** ** Claims on the comparison *)

Section CompareFacts.
Context {SI : SetIteration}.

(** What a success result is made of. *)
Lemma success_parts (today : string) (cur : list row) (data : Snapshot.t)
    (r : Comparison.success) :
  compare_holdings today cur (Some data) = Some (Comparison.Success r) ->
  let ci := extract_info cur in
  let pi := extract_info (default [] (Snapshot.holdings data)) in
  exists wc new removed,
    weight_changes_loop ci pi (iter (dom ci ∩ dom pi)) = Some wc
    /\ holdings_of ci (iter (dom ci ∖ dom pi)) = Some new
    /\ holdings_of pi (iter (dom pi ∖ dom ci)) = Some removed
    /\ r = {| Comparison.date := today;
              Comparison.previous_date :=
                default "Unknown" (Snapshot.date data);
              Comparison.total_holdings := length cur;
              Comparison.new_holdings := new;
              Comparison.removed_holdings := removed;
              Comparison.weight_changes :=
                sorted_reverse Change.key Float.ltb wc;
              Comparison.significant_changes :=
                size (dom ci ∖ dom pi) + size (dom pi ∖ dom ci)
                + length wc |}.
Proof.
  intros Hr ci pi.
  destruct (compare_holdings_success_inv _ _ _ _ Hr) as (d & [= <-] & Ht).
  destruct (compare_holdings_runs today cur data Ht)
    as (wc & new & removed & Hwc & Hnew & Hrem & Hc).
  exists wc, new, removed. repeat split; try done.
  rewrite Hc in Hr. by injection Hr.
Qed.

(** The entries of the loop over the common tickers. *)
Lemma elem_of_loop (ci pi : gmap string Info.t) (wc : list Change.t)
    (e : Change.t) :
  weight_changes_loop ci pi (iter (dom ci ∩ dom pi)) = Some wc ->
  e ∈ wc <->
  exists c p, ci !! Change.ticker e = Some c /\ pi !! Change.ticker e = Some p
              /\ e ∈ try_weights (Change.ticker e) c p.
Proof.
  intros Hwc.
  destruct (weight_changes_loop_spec ci pi (iter (dom ci ∩ dom pi)))
    as (wc' & Hwc' & Hall).
  { intros t [? ?]%elem_of_iter%elem_of_intersection.
    by rewrite <- !elem_of_dom. }
  assert (wc' = wc) as -> by congruence. rewrite Hall. split.
  - intros (t & c & p & _ & Hc & Hp & He).
    assert (Change.ticker e = t) as ->; [|eauto].
    apply elem_of_try_weights in He as (? & ? & _ & _ & _ & ->). done.
  - intros (c & p & Hc & Hp & He). exists (Change.ticker e), c, p.
    repeat split; try done.
    apply elem_of_iter, elem_of_intersection. rewrite !elem_of_dom. eauto.
Qed.

Lemma try_weights_same (t : string) (c : Info.t) : try_weights t c c = [].
Proof.
  unfold try_weights.
  destruct (weight_float (weight_str (Info.weight c))); [|done].
  by rewrite FloatFacts.float_sub_diag.
Qed.

Lemma holdings_of_nil (info : gmap string Info.t) (hs : list Holding.t) :
  holdings_of info [] = Some hs -> hs = [].
Proof. by intros [= <-]. Qed.

(** C2.  A snapshot compared with a previous one of the same holdings: no
    new holding, none removed, no weight change, and no significant
    change. *)
Theorem compare_same (today : string) (cur : list row) (data : Snapshot.t) :
  Snapshot.holdings data = Some cur ->
  compare_holdings today cur (Some data)
  = Some (Comparison.Success
      {| Comparison.date := today;
         Comparison.previous_date := default "Unknown" (Snapshot.date data);
         Comparison.total_holdings := length cur;
         Comparison.new_holdings := [];
         Comparison.removed_holdings := [];
         Comparison.weight_changes := [];
         Comparison.significant_changes := 0 |}).
Proof.
  intros Hh.
  assert (Snapshot.truthy data = true) as Ht.
  { unfold Snapshot.truthy. rewrite Hh. simpl.
    by rewrite !orb_true_r. }
  destruct (compare_holdings_runs today cur data Ht)
    as (wc & new & removed & Hwc & Hnew & Hrem & ->).
  rewrite Hh in *. simpl in *.
  rewrite difference_diag_L in *. rewrite iter_empty in *.
  apply holdings_of_nil in Hnew as ->. apply holdings_of_nil in Hrem as ->.
  assert (wc = []) as ->; [|by rewrite size_empty].
  destruct wc as [|e wc]; [done|]. exfalso.
  assert (e ∈ e :: wc) as He by left.
  rewrite (elem_of_loop _ _ _ e Hwc) in He.
  destruct He as (c & p & Hc & Hp & He).
  assert (p = c) as -> by congruence.
  rewrite try_weights_same in He. by apply elem_of_nil in He.
Qed.
End CompareFacts.

Lemma compare_same_witness :
  compare_holdings (SI := reverse_iteration) "2024-01-02"
    [["JPM"; "JPMorgan"; "9.81%"]; ["BAC"; "Bank of America"; "inf"];
     ["WFC"; "Wells Fargo"; "n/a"]; ["C"]]
    (Some {| Snapshot.date := Some "2024-01-01";
             Snapshot.timestamp := None;
             Snapshot.holdings :=
               Some [["JPM"; "JPMorgan"; "9.81%"];
                     ["BAC"; "Bank of America"; "inf"];
                     ["WFC"; "Wells Fargo"; "n/a"]; ["C"]];
             Snapshot.total_count := Some 4 |})
  = Some (Comparison.Success
      {| Comparison.date := "2024-01-02";
         Comparison.previous_date := "2024-01-01";
         Comparison.total_holdings := 4;
         Comparison.new_holdings := [];
         Comparison.removed_holdings := [];
         Comparison.weight_changes := [];
         Comparison.significant_changes := 0 |}).
Proof. apply (compare_same (SI := reverse_iteration)). reflexivity. Defined.

Section HoldingsFacts.
Context {SI : SetIteration}.

Lemma holdings_of_tickers (info : gmap string Info.t) (X : gset string)
    (hs : list Holding.t) :
  holdings_of info (iter X) = Some hs ->
  map Holding.ticker hs = iter X
  /\ forall h, h ∈ hs ->
       exists i, info !! Holding.ticker h = Some i
                 /\ Holding.name h = Info.name i.
Proof.
  intros Hhs. apply mapM_Some_1 in Hhs.
  induction Hhs as [|t h l hs Hth _ IH]; [split; [done|]|].
  - by intros h ?%elem_of_nil.
  - destruct IH as [IH1 IH2].
    destruct (info !! t) as [i|] eqn:Hi; [|done].
    injection Hth as <-. simpl. split; [by rewrite IH1|].
    intros h [->|Hh]%elem_of_cons; [eauto|by apply IH2].
Qed.

(** The two lists of holdings of a success result. *)
Lemma holdings_lists (today : string) (cur : list row)
    (data : Snapshot.t) (r : Comparison.success) :
  compare_holdings today cur (Some data) = Some (Comparison.Success r) ->
  let ci := extract_info cur in
  let pi := extract_info (default [] (Snapshot.holdings data)) in
  let new := Comparison.new_holdings r in
  let removed := Comparison.removed_holdings r in
  (forall t, t ∈ map Holding.ticker new <-> is_Some (ci !! t) /\ pi !! t = None)
  /\ (forall t, t ∈ map Holding.ticker removed
                <-> is_Some (pi !! t) /\ ci !! t = None)
  /\ NoDup (map Holding.ticker new)
  /\ NoDup (map Holding.ticker removed)
  /\ (forall h h', h ∈ new -> h' ∈ removed ->
        Holding.ticker h <> Holding.ticker h')
  /\ (forall h, h ∈ new ->
        exists i, ci !! Holding.ticker h = Some i
                  /\ Holding.name h = Info.name i)
  /\ (forall h, h ∈ removed ->
        exists i, pi !! Holding.ticker h = Some i
                  /\ Holding.name h = Info.name i).
Proof.
  intros Hr ci pi.
  destruct (success_parts _ _ _ _ Hr)
    as (wc & new & removed & _ & Hnew & Hrem & ->). simpl.
  apply holdings_of_tickers in Hnew as [Hn1 Hn2].
  apply holdings_of_tickers in Hrem as [Hr1 Hr2].
  fold ci pi in Hn1, Hn2, Hr1, Hr2.
  assert (forall t, t ∈ map Holding.ticker new
                    <-> is_Some (ci !! t) /\ pi !! t = None) as Hin.
  { intros t. rewrite Hn1, elem_of_iter, elem_of_difference.
    by rewrite elem_of_dom, not_elem_of_dom. }
  assert (forall t, t ∈ map Holding.ticker removed
                    <-> is_Some (pi !! t) /\ ci !! t = None) as Hout.
  { intros t. rewrite Hr1, elem_of_iter, elem_of_difference.
    by rewrite elem_of_dom, not_elem_of_dom. }
  repeat split; try (by apply Hin); try (by apply Hout); try done.
  - rewrite Hn1. apply NoDup_iter.
  - rewrite Hr1. apply NoDup_iter.
  - intros h h' Hh Hh' E.
    assert (Holding.ticker h ∈ map Holding.ticker new) as [[i Hi] _]%Hin
      by (by apply list_elem_of_fmap_2).
    assert (Holding.ticker h' ∈ map Holding.ticker removed) as [_ Hn]%Hout
      by (by apply list_elem_of_fmap_2).
    congruence.
Qed.

(** C7.  The tickers of [new_holdings] are those of the current mapping
    that the previous one lacks, each once; the tickers of
    [removed_holdings] those of the previous mapping that the current one
    lacks, each once; no ticker is in both lists; and an entry has the
    name of its ticker in the mapping where the ticker is. *)
Theorem new_and_removed (today : string) (cur : list row)
    (data : Snapshot.t) (r : Comparison.success) :
  compare_holdings today cur (Some data) = Some (Comparison.Success r) ->
  let ci := extract_info cur in
  let pi := extract_info (default [] (Snapshot.holdings data)) in
  let new := Comparison.new_holdings r in
  let removed := Comparison.removed_holdings r in
  (forall t, t ∈ map Holding.ticker new <-> is_Some (ci !! t) /\ pi !! t = None)
  /\ (forall t, t ∈ map Holding.ticker removed
                <-> is_Some (pi !! t) /\ ci !! t = None)
  /\ NoDup (map Holding.ticker new)
  /\ NoDup (map Holding.ticker removed)
  /\ (forall h h', h ∈ new -> h' ∈ removed ->
        Holding.ticker h <> Holding.ticker h')
  /\ (forall h, h ∈ new ->
        exists i, ci !! Holding.ticker h = Some i
                  /\ Holding.name h = Info.name i)
  /\ (forall h, h ∈ removed ->
        exists i, pi !! Holding.ticker h = Some i
                  /\ Holding.name h = Info.name i).
Proof. apply holdings_lists. Qed.

(** C10.  The name of a [weight_changes] entry is the one the current
    mapping has for the ticker. *)
Theorem change_name_is_current (today : string) (cur : list row)
    (data : Snapshot.t) (r : Comparison.success) (e : Change.t) :
  compare_holdings today cur (Some data) = Some (Comparison.Success r) ->
  e ∈ Comparison.weight_changes r ->
  exists c, extract_info cur !! Change.ticker e = Some c
            /\ Change.name e = Info.name c.
Proof.
  intros Hr He.
  destruct (success_parts _ _ _ _ Hr) as (wc & ? & ? & Hwc & _ & _ & ->).
  simpl in He. rewrite sorted_reverse_perm in He.
  apply (elem_of_loop _ _ _ e Hwc) in He as (c & p & Hc & _ & He).
  exists c. split; [done|].
  by apply elem_of_try_weights in He as (? & ? & _ & _ & _ & ->).
Qed.
End HoldingsFacts.

(** The example of the specification, run. *)
Example sample_run :
  compare_holdings (SI := elements_iteration) Sample.today Sample.current
    (Some Sample.previous)
  = Some (Comparison.Success Sample.result).
Proof. vm_compute. reflexivity. Qed.

Lemma new_and_removed_witness :
  compare_holdings (SI := elements_iteration) Sample.today Sample.current
    (Some Sample.previous)
  = Some (Comparison.Success Sample.result)
  /\ forall h h', h ∈ Comparison.new_holdings Sample.result ->
       h' ∈ Comparison.removed_holdings Sample.result ->
       Holding.ticker h <> Holding.ticker h'.
Proof.
  assert (compare_holdings (SI := elements_iteration) Sample.today
            Sample.current (Some Sample.previous)
          = Some (Comparison.Success Sample.result)) as Hrun
    by (vm_compute; reflexivity).
  split; [exact Hrun|].
  destruct (new_and_removed (SI := elements_iteration) Sample.today
              Sample.current Sample.previous Sample.result Hrun)
    as (_ & _ & _ & _ & Hd & _).
  exact Hd.
Defined.

Lemma change_name_is_current_witness :
  Sample.aapl ∈ Comparison.weight_changes Sample.result
  /\ exists c, extract_info Sample.current !! "AAPL" = Some c
               /\ Change.name Sample.aapl = Info.name c.
Proof.
  split; [left|].
  apply (change_name_is_current (SI := elements_iteration) Sample.today
           Sample.current Sample.previous Sample.result Sample.aapl).
  - vm_compute. reflexivity.
  - left.
Defined.

(** The name in the sample is the current one, "Apple Inc", where the
    previous snapshot has "Apple Computer". *)
Example sample_names :
  Info.name <$> extract_info Sample.current !! "AAPL" = Some "Apple Inc"
  /\ Info.name <$> extract_info (default [] (Snapshot.holdings Sample.previous))
                     !! "AAPL" = Some "Apple Computer"
  /\ Change.name Sample.aapl = "Apple Inc".
Proof. vm_compute. done. Qed.

(** ** Claims on the weights *)

(** The literal of the threshold is the float [float("0.01")]. *)
Example threshold_literal : Text.float_of "0.01" = Some Float.threshold.
Proof. vm_compute. reflexivity. Qed.

Section WeightFacts.
Context {SI : SetIteration}.

End WeightFacts.


(** The two sides of the threshold, run: a previous weight of 0 against
    0.01, then against 0.0101. *)
Example threshold_excluded :
  Comparison.weight_changes <$>
    (compare_holdings (SI := elements_iteration) "2024-01-02"
       [["JPM"; "JPMorgan"; "0.01"]]
       (Some {| Snapshot.date := None; Snapshot.timestamp := None;
                Snapshot.holdings := Some [["JPM"; "JPMorgan"; "0"]];
                Snapshot.total_count := None |})
     ≫= fun c => match c with
                 | Comparison.Success r => Some r
                 | _ => None
                 end)
  = Some [].
Proof. vm_compute. reflexivity. Qed.

Example just_above_included :
  Comparison.weight_changes <$>
    (compare_holdings (SI := elements_iteration) "2024-01-02"
       [["JPM"; "JPMorgan"; "0.0101"]]
       (Some {| Snapshot.date := None; Snapshot.timestamp := None;
                Snapshot.holdings := Some [["JPM"; "JPMorgan"; "0"]];
                Snapshot.total_count := None |})
     ≫= fun c => match c with
                 | Comparison.Success r => Some r
                 | _ => None
                 end)
  = Some [ {| Change.ticker := "JPM"; Change.name := "JPMorgan";
              Change.previous_weight := Float.zero;
              Change.current_weight :=
                S754_finite false 5822253598264577 (-59);
              Change.change := S754_finite false 5822253598264577 (-59) |} ].
Proof. vm_compute. reflexivity. Qed.

(** ** Claims on the order of [weight_changes] *)

Section OrderFacts.
Context {SI : SetIteration}.

(** The key of an entry of the loop is a number. *)
Lemma loop_key_not_nan (ci pi : gmap string Info.t) (wc : list Change.t) :
  weight_changes_loop ci pi (iter (dom ci ∩ dom pi)) = Some wc ->
  Forall (fun e => Float.is_nan (Change.key e) = false) wc.
Proof.
  intros Hwc. apply Forall_forall. intros e He.
  apply (elem_of_loop _ _ _ e Hwc) in He as (c & p & _ & _ & He).
  apply elem_of_try_weights in He as (cw & pw & _ & _ & Hgt & ->).
  unfold Change.key. cbn [Change.change].
  by apply FloatFacts.float_gtb_not_nan in Hgt.
Qed.

Lemma descending_leb (l : list Change.t) :
  Forall (fun e => Float.is_nan (Change.key e) = false) l ->
  descending Change.key Float.ltb l ->
  StronglySorted
    (fun a b => Float.leb (Change.key b) (Change.key a) = true) l.
Proof.
  intros Hl Hs. induction Hs as [|a l Hs IH Ha]; [constructor|].
  apply Forall_cons in Hl as [Hna Hl]. constructor; [by apply IH|].
  rewrite Forall_forall in Ha, Hl. apply Forall_forall. intros b Hb.
  apply FloatFacts.float_not_ltb_leb; auto.
Qed.

(** C3.  [weight_changes] is in descending order of [abs(change)], and the
    entries of equal [abs(change)] are in the order in which the loop over
    the common tickers met them. *)
Theorem weight_changes_sorted_stable (today : string) (cur : list row)
    (data : Snapshot.t) (r : Comparison.success) :
  compare_holdings today cur (Some data) = Some (Comparison.Success r) ->
  let ci := extract_info cur in
  let pi := extract_info (default [] (Snapshot.holdings data)) in
  StronglySorted
    (fun a b => Float.leb (Float.abs (Change.change b))
                  (Float.abs (Change.change a)) = true)
    (Comparison.weight_changes r)
  /\ exists met,
       weight_changes_loop ci pi (iter (dom ci ∩ dom pi)) = Some met
       /\ Comparison.weight_changes r ≡ₚ met
       /\ forall k : float,
            filter (fun e => Float.eqb (Float.abs (Change.change e)) k = true)
              (Comparison.weight_changes r)
            = filter
                (fun e => Float.eqb (Float.abs (Change.change e)) k = true)
                met.
Proof.
  intros Hr ci pi.
  destruct (success_parts _ _ _ _ Hr)
    as (wc & new & removed & Hwc & _ & _ & ->).
  cbn [Comparison.weight_changes].
  pose proof (loop_key_not_nan _ _ _ Hwc) as Hnan. split.
  - apply descending_leb; [by rewrite sorted_reverse_perm|].
    apply (sorted_reverse_descending _ _
             (fun k => Float.is_nan k = false)); [| |done].
    + apply FloatFacts.float_ltb_asym.
    + apply FloatFacts.float_geb_trans.
  - exists wc. split; [done|]. split; [apply sorted_reverse_perm|].
    intros k.
    apply (sorted_reverse_stable Change.key Float.ltb
             (fun e => Float.eqb (Float.abs (Change.change e)) k = true)).
    intros a b Ha Hb. by apply (FloatFacts.float_eqb_not_ltb _ _ k).
Qed.
End OrderFacts.

Lemma weight_changes_sorted_stable_witness :
  map Change.ticker (Comparison.weight_changes (Ties.result elements_iteration))
  = ["WFC"; "JPM"; "BAC"]
  /\ StronglySorted
       (fun a b => Float.leb (Float.abs (Change.change b))
                     (Float.abs (Change.change a)) = true)
       (Comparison.weight_changes (Ties.result elements_iteration)).
Proof.
  split; [vm_compute; reflexivity|].
  apply (weight_changes_sorted_stable (SI := elements_iteration)
           Sample.today Ties.current Ties.previous).
  vm_compute. reflexivity.
Defined.

(** The two entries of equal [abs(change)] come in the order of the
    iteration: the other way round when the set is gone through the other
    way. *)
Example ties_keep_their_order :
  map Change.ticker (Comparison.weight_changes (Ties.result reverse_iteration))
  = ["WFC"; "BAC"; "JPM"]
  /\ map (fun e => Float.format_3f true (Change.change e))
         (Comparison.weight_changes (Ties.result reverse_iteration))
     = ["+2.000"; "-0.500"; "+0.500"].
Proof. vm_compute. done. Qed.

(** ** Claims on the parse of a weight *)

Section ParseFacts.
Context {SI : SetIteration}.

End ParseFacts.



(** ** Claims on the store *)

Section StoreFacts.
Context {SI : SetIteration}.

Lemma NoDup_glob (data_dir : directory) : NoDup (glob data_dir).
Proof. apply NoDup_filter, NoDup_iter. Qed.

(** The sorted file names: the same names, none below a later one. *)
Lemma sorted_names (names : list string) :
  sorted_reverse id String.ltb names ≡ₚ names
  /\ descending id String.ltb (sorted_reverse id String.ltb names).
Proof.
  split; [apply sorted_reverse_perm|].
  apply (sorted_reverse_descending _ _ (fun _ => True)).
  - apply StringFacts.string_ltb_asym.
  - intros a b c _ _ _. apply StringFacts.string_geb_trans.
  - by apply Forall_forall.
Qed.

End StoreFacts.

(** The three cases, run: the file of the day before is the one read; when
    it cannot be read, or on the first day, the differ answers
    [FirstRun]. *)
Example load_previous_runs :
  load_previous_holdings (SI := reverse_iteration) Dir.three_days
  = Some Dir.day1
  /\ load_previous_holdings (SI := reverse_iteration) Dir.damaged = None
  /\ load_previous_holdings (SI := elements_iteration) Dir.first_day = None
  /\ compare_holdings (SI := elements_iteration) Sample.today Sample.current
       (load_previous_holdings (SI := elements_iteration) Dir.damaged)
     = Some (Comparison.FirstRun "No previous data to compare" 2).
Proof. vm_compute. done. Qed.

(** ** Claims on the report *)

Module ReportFacts.
Import Report.

Lemma weight_lines_none (l : list string) :
  Forall (fun line => is_weight_line line = false) l -> weight_lines l = [].
Proof.
  induction 1 as [|x l Hx _ IH]; [done|].
  rewrite filter_cons, IH. destruct (decide _); [congruence|done].
Qed.

Lemma holding_lines_plain (mark : string) (h : Holding.t) :
  Forall (fun line => is_weight_line line = false) (holding_lines mark h).
Proof.
  unfold holding_lines. destruct (Holding.name h); repeat constructor.
Qed.

Lemma holdings_plain (mark : string) (l : list Holding.t) :
  Forall (fun line => is_weight_line line = false)
    (concat (map (holding_lines mark) l)).
Proof.
  induction l as [|h l IH]; [constructor|]. cbn [map concat].
  apply Forall_app. split; [apply holding_lines_plain|done].
Qed.

Lemma new_block_plain (l : list Holding.t) : weight_lines (new_block l) = [].
Proof.
  apply weight_lines_none. destruct l as [|h l]; [constructor|].
  unfold new_block. apply Forall_app. split; [repeat constructor|].
  apply holdings_plain.
Qed.

Lemma removed_block_plain (l : list Holding.t) :
  weight_lines (removed_block l) = [].
Proof.
  apply weight_lines_none. destruct l as [|h l]; [constructor|].
  unfold removed_block. apply Forall_app. split; [repeat constructor|].
  apply holdings_plain.
Qed.

Lemma change_head_weight_line (c : Change.t) :
  is_weight_line (change_head c) = true.
Proof. unfold change_head. by destruct (Float.gtb _ _). Qed.

Lemma change_lines_head (c : Change.t) :
  weight_lines (change_lines c) = [change_head c].
Proof.
  unfold change_lines. rewrite filter_app, filter_cons, filter_nil.
  rewrite change_head_weight_line. simpl. f_equal.
  apply weight_lines_none. apply Forall_app.
  split; [destruct (Change.name c)|]; repeat constructor.
Qed.

Lemma changes_heads (l : list Change.t) :
  weight_lines (concat (map change_lines l)) = map change_head l.
Proof.
  induction l as [|c l IH]; [done|].
  cbn [map concat]. by rewrite filter_app, change_lines_head, IH.
Qed.

Lemma weight_block_lines (l : list Change.t) :
  weight_lines (weight_block l)
  = map change_head (take 10 l)
    ++ (if (10 <? length l)%nat then [more_line (length l - 10)] else []).
Proof.
  destruct l as [|c l]; [done|]. unfold weight_block.
  rewrite !filter_app, changes_heads.
  rewrite (weight_lines_none [_; _; _]) by repeat constructor.
  simpl app. f_equal. by destruct (10 <? _)%nat.
Qed.

Lemma no_changes_block_plain (n : nat) :
  weight_lines (no_changes_block n) = [].
Proof.
  apply weight_lines_none. unfold no_changes_block.
  destruct (n =? 0)%nat; repeat constructor.
Qed.

(** The weight lines of a report are those of its weight changes block. *)
Lemma report_weight_lines (generated : string) (r : Comparison.success) :
  weight_lines (report_lines generated (Comparison.Success r))
  = map change_head (take 10 (Comparison.weight_changes r))
    ++ (if (10 <? length (Comparison.weight_changes r))%nat
        then [more_line (length (Comparison.weight_changes r) - 10)]
        else []).
Proof.
  unfold report_lines. rewrite !filter_app.
  rewrite new_block_plain, removed_block_plain, no_changes_block_plain.
  rewrite weight_block_lines.
  rewrite !(weight_lines_none [_; _; _]) by repeat constructor.
  rewrite (weight_lines_none [_]) by repeat constructor.
  by rewrite !app_nil_l, !app_nil_r.
Qed.
End ReportFacts.

Section ReportClaims.
Context {SI : SetIteration}.
Import Text Report.

(** A result without significant change has three empty lists. *)
Lemma no_significant_change (today : string) (cur : list row)
    (prev : option Snapshot.t) (r : Comparison.success) :
  compare_holdings today cur prev = Some (Comparison.Success r) ->
  Comparison.significant_changes r = 0 ->
  Comparison.new_holdings r = [] /\ Comparison.removed_holdings r = []
  /\ Comparison.weight_changes r = [].
Proof.
  intros Hr Hz.
  destruct (compare_holdings_success_inv _ _ _ _ Hr) as (data & -> & _).
  destruct (success_parts _ _ _ _ Hr)
    as (wc & new & removed & _ & Hnew & Hrem & ->).
  cbn [Comparison.new_holdings Comparison.removed_holdings
       Comparison.weight_changes Comparison.significant_changes] in *.
  apply length_mapM in Hnew, Hrem. rewrite length_iter in Hnew, Hrem.
  repeat split.
  - apply length_zero_iff_nil. lia.
  - apply length_zero_iff_nil. lia.
  - assert (wc = []) as -> by (apply length_zero_iff_nil; lia). done.
Qed.

End ReportClaims.


(** The report of a comparison without change, run: the snapshot of the
    sample against itself. *)
Example report_without_change :
  (fun c => Report.report_lines "2024-01-02 21:30:00 UTC" <$> c)
    (compare_holdings (SI := elements_iteration) Sample.today Sample.current
       (Some {| Snapshot.date := Some "2024-01-01";
                Snapshot.timestamp := None;
                Snapshot.holdings := Some Sample.current;
                Snapshot.total_count := None |}))
  = Some [Report.rule;
          "iShares US Financials ETF (IXG) - Daily Holdings Report";
          Report.rule;
          (Text.nl ++ "Report Date: 2024-01-02")%string;
          "Comparing with: 2024-01-01";
          (Text.nl ++ "Total Holdings: 2")%string;
          "Total Changes Detected: 0";
          (Text.nl ++ Report.thin_rule)%string;
          "✓ No significant changes detected since last update";
          Report.thin_rule;
          (Text.nl ++ Report.rule)%string;
          "Generated: 2024-01-02 21:30:00 UTC"; Report.rule].
Proof. vm_compute. reflexivity. Qed.

(** The difference is the one of the floats: between the weights "1.00"
    and "1.01" it is a little above [float("0.01")], and listed. *)
Example rounded_difference :
  (fun c => match c with
            | Some (Comparison.Success r) =>
                map Change.change (Comparison.weight_changes r)
            | _ => []
            end)
    (compare_holdings (SI := elements_iteration) "2024-01-02"
       [["JPM"; "JPMorgan"; "1.01"]]
       (Some {| Snapshot.date := None; Snapshot.timestamp := None;
                Snapshot.holdings := Some [["JPM"; "JPMorgan"; "1.00"]];
                Snapshot.total_count := None |}))
  = [S754_finite false 5764607523034240 (-59)]
  /\ Float.threshold = S754_finite false 5764607523034235 (-59).
Proof. vm_compute. done. Qed.

(** * Further properties of the code *)

(** ** The store, beyond the claims *)

Module NameFacts.
Lemma length_append (a b : string) :
  String.length (a ++ b)%string = String.length a + String.length b.
Proof. induction a as [|c a IH]; simpl; [done|]. by rewrite IH. Qed.

Lemma substring_append (a b : string) (n : nat) :
  substring (String.length a) n (a ++ b)%string = substring 0 n b.
Proof. induction a as [|c a IH]; simpl; [done|]. apply IH. Qed.

Lemma substring_all (b : string) : substring 0 (String.length b) b = b.
Proof. induction b as [|c b IH]; simpl; [done|]. by rewrite IH. Qed.

Lemma endswith_append (a p : string) : Text.endswith p (a ++ p)%string = true.
Proof.
  unfold Text.endswith. rewrite length_append.
  replace (String.length a + String.length p - String.length p)
    with (String.length a) by lia.
  rewrite substring_append, substring_all, String.eqb_refl.
  apply andb_true_intro. split; [|done]. apply Nat.leb_le. lia.
Qed.

Lemma holdings_file_snapshot (date_str : string) :
  is_snapshot_name (holdings_file date_str) = true.
Proof.
  unfold is_snapshot_name, holdings_file.
  assert (Text.endswith ".json" ("holdings_" ++ date_str ++ ".json")%string
          = true) as ->
    by apply (endswith_append ("holdings_" ++ date_str)%string).
  assert (Text.startswith "holdings_"
            ("holdings_" ++ date_str ++ ".json")%string = true) as -> by done.
  cbn [andb]. apply Nat.leb_le. rewrite !length_append. lia.
Qed.

Lemma report_file_no_snapshot (date_str : string) :
  is_snapshot_name (report_file date_str) = false.
Proof. done. Qed.

Lemma append_cancel_r (a b p : string) :
  (a ++ p)%string = (b ++ p)%string -> a = b.
Proof.
  revert b. induction a as [|c a IH]; intros [|c' b] E; try done.
  - apply (f_equal String.length) in E.
    rewrite !length_append in E. simpl in E. lia.
  - apply (f_equal String.length) in E.
    rewrite !length_append in E. simpl in E. lia.
  - simpl in E. injection E as -> E. f_equal. by apply IH.
Qed.

Lemma holdings_file_inj (d d' : string) :
  holdings_file d = holdings_file d' -> d = d'.
Proof.
  unfold holdings_file. intros E. cbn in E.
  injection E as E. by apply (append_cancel_r d d' ".json").
Qed.
End NameFacts.

Section StoreMore.
Context {SI : SetIteration}.

Lemma elem_of_glob (data_dir : directory) (name : string) :
  name ∈ glob data_dir
  <-> is_Some (data_dir !! name) /\ is_snapshot_name name = true.
Proof.
  unfold glob. rewrite list_elem_of_filter, elem_of_iter, elem_of_dom.
  tauto.
Qed.

Lemma load_previous_file (data_dir : directory) :
  load_previous_holdings data_dir
  = match previous_file data_dir with
    | Some name =>
        match data_dir !! name with
        | Some (Some data) => Some data
        | _ => None
        end
    | None => None
    end.
Proof.
  unfold load_previous_holdings, previous_file.
  by destruct (length _ <? 2)%nat.
Qed.

Lemma previous_file_listed (data_dir : directory) (name : string) :
  previous_file data_dir = Some name -> name ∈ glob data_dir.
Proof.
  unfold previous_file. destruct (length _ <? 2)%nat; [done|].
  intros Hn%list_elem_of_lookup_2.
  by rewrite sorted_reverse_perm in Hn.
Qed.

(** The file opened when two names stand out: [newest] above every other
    snapshot file name, [second] above all but [newest]. *)
Lemma previous_file_second (data_dir : directory) (newest second : string) :
  newest ∈ glob data_dir -> second ∈ glob data_dir ->
  String.ltb second newest = true ->
  (forall name, name ∈ glob data_dir -> name <> newest -> name <> second ->
     String.ltb name second = true) ->
  previous_file data_dir = Some second.
Proof.
  intros Hnew Hsec Hlt Hrest.
  destruct (sorted_names (glob data_dir)) as [Hperm Hdesc].
  pose proof (NoDup_glob data_dir) as Hnd. rewrite <- Hperm in Hnd.
  assert (second <> newest) as Hne.
  { intros ->. apply StringFacts.string_ltb_asym in Hlt as Hlt'. congruence. }
  assert (forall name, name ∈ glob data_dir -> name <> newest ->
            String.ltb name newest = true) as Hbelow.
  { intros name Hin Hn. destruct (decide (name = second)) as [->|Hs]; [done|].
    pose proof (Hrest name Hin Hn Hs) as H1.
    destruct (String.ltb name newest) eqn:E; [done|]. exfalso.
    pose proof (StringFacts.string_geb_trans name newest second E) as H2.
    rewrite (StringFacts.string_ltb_asym _ _ Hlt) in H2.
    specialize (H2 eq_refl). congruence. }
  unfold previous_file. rewrite <- Hperm in Hnew, Hsec.
  destruct (sorted_reverse id String.ltb (glob data_dir))
    as [|a [|b rest]] eqn:Hfiles.
  - by apply elem_of_nil in Hnew.
  - apply list_elem_of_singleton in Hnew, Hsec. congruence.
  - simpl. f_equal.
    apply StronglySorted_cons in Hdesc as [Ha Hdesc].
    apply StronglySorted_cons in Hdesc as [Hb _].
    rewrite Forall_forall in Ha, Hb. unfold id in Ha, Hb.
    apply NoDup_cons in Hnd as [Hna Hnd]. apply NoDup_cons in Hnd as [Hnb _].
    assert (forall x, x ∈ a :: b :: rest -> x ∈ glob data_dir) as Hg.
    { intros x Hx. by rewrite <- Hperm. }
    assert (a = newest) as ->.
    { destruct (decide (a = newest)) as [|Hn]; [done|]. exfalso.
      apply elem_of_cons in Hnew as [|Hnew]; [done|].
      pose proof (Hbelow a (Hg a ltac:(left)) Hn). specialize (Ha _ Hnew).
      congruence. }
    destruct (decide (b = second)) as [|Hs]; [done|]. exfalso.
    assert (b <> newest) as Hbn by (intros ->; apply Hna; left).
    apply elem_of_cons in Hsec as [|Hsec]; [done|].
    apply elem_of_cons in Hsec as [|Hsec]; [done|].
    pose proof (Hrest b (Hg b ltac:(right; left)) Hbn Hs).
    specialize (Hb _ Hsec). congruence.
Qed.

(** No file is opened when at most one snapshot file is there. *)
Lemma previous_file_none (data_dir : directory) :
  (forall n n', n ∈ glob data_dir -> n' ∈ glob data_dir -> n = n') ->
  previous_file data_dir = None.
Proof.
  intros Hone. unfold previous_file.
  destruct (sorted_names (glob data_dir)) as [Hperm _].
  pose proof (NoDup_glob data_dir) as Hnd. rewrite <- Hperm in Hnd.
  destruct (sorted_reverse id String.ltb (glob data_dir))
    as [|a [|b rest]]; try done. exfalso.
  apply NoDup_cons in Hnd as [Hna _]. apply Hna.
  rewrite (Hone a b); [left| |]; rewrite <- Hperm; [left|right; left].
Qed.
End StoreMore.

(** The sorted list of the snapshot file names is the same for two listings
    of directories with the same snapshot files. *)
Lemma sorted_glob_ext (SI1 SI2 : SetIteration) (dir1 dir2 : directory) :
  (forall n, is_snapshot_name n = true ->
     is_Some (dir1 !! n) <-> is_Some (dir2 !! n)) ->
  sorted_reverse id String.ltb (glob (SI := SI1) dir1)
  = sorted_reverse id String.ltb (glob (SI := SI2) dir2).
Proof.
  intros Hsame.
  destruct (sorted_names (glob (SI := SI1) dir1)) as [Hp1 Hd1].
  destruct (sorted_names (glob (SI := SI2) dir2)) as [Hp2 Hd2].
  eapply StronglySorted_unique_strong; [|exact Hd1|exact Hd2|].
  - intros x1 x2 _ _ H1 H2. unfold id in *.
    destruct (StringFacts.string_not_ltb _ _ H1) as [|H3]; [done|].
    congruence.
  - rewrite Hp1, Hp2.
    apply NoDup_Permutation; [apply NoDup_glob..|].
    intros n. rewrite !elem_of_glob. specialize (Hsame n).
    split; intros [? Hn]; (split; [by apply Hsame|done]).
Qed.

(** X1.  The previous data loaded depend on the snapshot files only, their
    names and what they hold: neither on the other files of the directory
    nor on the order in which the directory is listed. *)
Theorem load_previous_snapshot_files_only (SI1 SI2 : SetIteration)
    (dir1 dir2 : directory) :
  (forall n, is_snapshot_name n = true -> dir1 !! n = dir2 !! n) ->
  load_previous_holdings (SI := SI1) dir1
  = load_previous_holdings (SI := SI2) dir2.
Proof.
  intros Hsame. unfold load_previous_holdings.
  rewrite (sorted_glob_ext SI1 SI2 dir1 dir2)
    by (intros n Hn; by rewrite (Hsame n Hn)).
  destruct (length _ <? 2)%nat; [done|].
  destruct (_ !! 1) as [name|] eqn:Hname; [|done].
  rewrite Hsame; [done|].
  apply list_elem_of_lookup_2 in Hname.
  rewrite sorted_reverse_perm in Hname.
  by apply (elem_of_glob (SI := SI2)) in Hname as [_ ?].
Qed.

Lemma load_previous_snapshot_files_only_witness :
  load_previous_holdings (SI := elements_iteration) Dir.three_days
  = load_previous_holdings (SI := reverse_iteration)
      (<["notes.txt" := None]> (delete "report_2024-01-02.txt" Dir.three_days)).
Proof.
  apply load_previous_snapshot_files_only. intros n Hn.
  rewrite lookup_insert_ne by (intros <-; discriminate).
  rewrite lookup_delete_ne by (intros <-; discriminate).
  reflexivity.
Defined.

Section SaveThenLoad.
Context {SI : SetIteration}.

Lemma lookup_listing (fs : files) (name : string) :
  listing fs !! name = File.load <$> fs !! name.
Proof. apply lookup_fmap. Qed.

(** The snapshot files after [save_holdings]: the one written and those
    that were there. *)
Lemma elem_of_glob_saved (date_str timestamp : string) (h : row)
    (holdings : list row) (fs : files) (name : string) :
  name ∈ glob (listing (save_holdings date_str timestamp (h :: holdings) fs).2)
  <-> name = holdings_file date_str
      \/ (is_Some (fs !! name) /\ is_snapshot_name name = true).
Proof.
  rewrite elem_of_glob, lookup_listing. simpl.
  destruct (decide (name = holdings_file date_str)) as [->|Hne].
  - rewrite lookup_insert_eq. simpl.
    pose proof (NameFacts.holdings_file_snapshot date_str) as Hs.
    split; [by left|]. intros _. split; [eauto|done].
  - rewrite lookup_insert_ne by done. rewrite fmap_is_Some.
    split; [by right|]. by intros [?|?].
Qed.

(** X2.  The file just written is passed over: after [save_holdings], when
    the other snapshot files have names below the new one, the previous
    data are those of the file with the highest of these names; a file that
    cannot be read gives none. *)
Theorem load_previous_after_save (date_str timestamp : string) (h : row)
    (holdings : list row) (fs : files) (prev_name : string) :
  is_Some (fs !! prev_name) ->
  is_snapshot_name prev_name = true ->
  String.ltb prev_name (holdings_file date_str) = true ->
  (forall name, is_Some (fs !! name) -> is_snapshot_name name = true ->
     name <> prev_name -> name <> holdings_file date_str ->
     String.ltb name prev_name = true) ->
  load_previous_holdings
    (listing (save_holdings date_str timestamp (h :: holdings) fs).2)
  = fs !! prev_name ≫= File.load.
Proof.
  intros Hprev Hsnap Hlt Hothers.
  assert (prev_name <> holdings_file date_str) as Hne.
  { intros E. rewrite E in Hlt.
    pose proof (StringFacts.string_ltb_asym _ _ Hlt). congruence. }
  rewrite load_previous_file.
  rewrite (previous_file_second _ (holdings_file date_str) prev_name).
  - rewrite lookup_listing. simpl. rewrite lookup_insert_ne by done.
    by destruct (fs !! prev_name) as [[]|].
  - apply elem_of_glob_saved. by left.
  - apply elem_of_glob_saved. by right.
  - done.
  - intros name [->|[? ?]]%elem_of_glob_saved Hn1 Hn2; [done|].
    by apply Hothers.
Qed.
End SaveThenLoad.

Lemma load_previous_after_save_witness :
  load_previous_holdings (SI := reverse_iteration)
    (listing
       (save_holdings "2024-01-03" "2024-01-03T21:30:00"
          [["AAPL"; "Apple Inc"; "5.1"]]
          (<["holdings_2024-01-02.json" := File.Json Dir.day2]>
             (<["holdings_2024-01-01.json" := File.Json Dir.day1]>
                (<["report_2024-01-02.txt" := File.Text "text"]> ∅)))).2)
  = Some Dir.day2.
Proof.
  rewrite (load_previous_after_save (SI := reverse_iteration) _ _ _ _ _
             "holdings_2024-01-02.json").
  - reflexivity.
  - vm_compute. eauto.
  - reflexivity.
  - reflexivity.
  - intros name [f Hf] Hs Hn1 Hn2.
    rewrite lookup_insert_ne in Hf by done.
    destruct (decide (name = "holdings_2024-01-01.json")) as [->|Hn3];
      [reflexivity|].
    rewrite lookup_insert_ne in Hf by done.
    destruct (decide (name = "report_2024-01-02.txt")) as [->|Hn4];
      [discriminate|].
    rewrite lookup_insert_ne in Hf by done. done.
Defined.

(** ** The run *)

Section RunFacts.
Context {SI : SetIteration}.

Lemma compare_holdings_total (today : string) (cur : list row)
    (prev : option Snapshot.t) :
  is_Some (compare_holdings today cur prev).
Proof.
  destruct prev as [data|]; [|by eexists].
  destruct (Snapshot.truthy data) eqn:Ht.
  - destruct (compare_holdings_runs today cur data Ht)
      as (? & ? & ? & _ & _ & _ & ->). by eexists.
  - rewrite (compare_holdings_first_run today cur (Some data)); [by eexists|].
    by intros ? [= <-].
Qed.

Lemma get_holdings_data_Some (response : Http.response)
    (holdings : list row) :
  get_holdings_data response = Some holdings
  <-> holdings <> []
      /\ response = Http.Reply 200 (Http.Object (Some holdings)).
Proof.
  split.
  - destruct response as [|status [|[[|h l]|]]]; simpl; try done;
      destruct (Nat.eqb_spec status 200) as [->|]; try done.
    by intros [= <-].
  - intros [Hne ->]. simpl. by destruct holdings.
Qed.

(** The run once the holdings are fetched. *)
Lemma run_daily_check_fetched (clock : Clock.t) (h : row) (l : list row)
    (fs : files) :
  run_daily_check clock (Http.Reply 200 (Http.Object (Some (h :: l)))) fs
  = comparison ←
      compare_holdings (Clock.compare_date clock) (h :: l)
        (load_previous_holdings
           (listing (save_holdings (Clock.save_date clock)
                       (Clock.save_timestamp clock) (h :: l) fs).2));
    Some (Some comparison,
          <[report_file (Clock.report_date clock) :=
              File.Text (Report.generate_report (Clock.generated clock)
                           comparison)]>
            (save_holdings (Clock.save_date clock)
               (Clock.save_timestamp clock) (h :: l) fs).2).
Proof. done. Qed.

Lemma run_daily_check_fetched_Some (clock : Clock.t) (h : row)
    (l : list row) (fs : files) :
  exists comparison fs',
    run_daily_check clock (Http.Reply 200 (Http.Object (Some (h :: l)))) fs
    = Some (Some comparison, fs').
Proof.
  rewrite run_daily_check_fetched.
  destruct (compare_holdings_total (Clock.compare_date clock) (h :: l)
              (load_previous_holdings
                 (listing (save_holdings (Clock.save_date clock)
                             (Clock.save_timestamp clock) (h :: l) fs).2)))
    as [c ->].
  by eexists _, _.
Qed.

End RunFacts.

Section RunFiles.
Context {SI : SetIteration}.

Lemma report_file_not_holdings_file (d d' : string) :
  report_file d <> holdings_file d'.
Proof. discriminate. Qed.


(** X5.  The first run: when the directory has no snapshot file (but,
    maybe, one of the day already), the comparison returned is [FirstRun]
    with the number of the fetched rows. *)
Theorem run_daily_check_first_run (clock : Clock.t) (h : row)
    (l : list row) (fs : files) :
  (forall name, is_Some (fs !! name) -> is_snapshot_name name = true ->
     name = holdings_file (Clock.save_date clock)) ->
  exists fs',
    run_daily_check clock (Http.Reply 200 (Http.Object (Some (h :: l)))) fs
    = Some (Some (Comparison.FirstRun "No previous data to compare"
                    (length (h :: l))), fs').
Proof.
  intros Hnone. rewrite run_daily_check_fetched.
  rewrite load_previous_file, previous_file_none.
  - by eexists.
  - intros n n' [->|[? ?]]%elem_of_glob_saved [->|[? ?]]%elem_of_glob_saved;
      try done.
    + symmetry. by apply Hnone.
    + by apply Hnone.
    + rewrite (Hnone n), (Hnone n'); done.
Qed.
End RunFiles.


Lemma run_daily_check_first_run_witness :
  exists fs',
    run_daily_check (SI := elements_iteration)
      {| Clock.save_date := "2024-01-02";
         Clock.save_timestamp := "2024-01-02T21:30:00";
         Clock.compare_date := "2024-01-02";
         Clock.generated := "2024-01-02 21:30:01 UTC";
         Clock.report_date := "2024-01-02" |}
      (Http.Reply 200 (Http.Object (Some Sample.current)))
      (<["report_2024-01-01.txt" := File.Text "text"]>
         (<["holdings_2024-01-02.json" := File.Json Dir.day1]> ∅))
    = Some (Some (Comparison.FirstRun "No previous data to compare" 2), fs').
Proof.
  apply (run_daily_check_first_run (SI := elements_iteration)).
  intros name [f Hf] Hs.
  destruct (decide (name = "report_2024-01-01.txt")) as [->|Hn];
    [discriminate|].
  rewrite lookup_insert_ne in Hf by done.
  destruct (decide (name = "holdings_2024-01-02.json")) as [->|Hn'];
    [reflexivity|].
  rewrite lookup_insert_ne in Hf by done. done.
Defined.

Section RunAgain.
Context {SI : SetIteration}.

(** The differ reads the date, the holdings and the truth value of the
    previous data, nothing else. *)
Lemma compare_holdings_same_data (today : string) (cur : list row)
    (d d' : Snapshot.t) :
  Snapshot.date d = Snapshot.date d' ->
  Snapshot.holdings d = Snapshot.holdings d' ->
  Snapshot.truthy d = Snapshot.truthy d' ->
  compare_holdings today cur (Some d) = compare_holdings today cur (Some d').
Proof. unfold compare_holdings. by intros -> -> ->. Qed.

(** Rows against a snapshot of the same rows: nothing to report. *)
Lemma compare_against_same_rows (today : string) (cur : list row)
    (data : Snapshot.t) :
  Snapshot.holdings data = Some cur ->
  compare_holdings today cur (Some data)
  = Some (Comparison.Success
      {| Comparison.date := today;
         Comparison.previous_date := default "Unknown" (Snapshot.date data);
         Comparison.total_holdings := length cur;
         Comparison.new_holdings := [];
         Comparison.removed_holdings := [];
         Comparison.weight_changes := [];
         Comparison.significant_changes := 0 |}).
Proof.
  intros Hh.
  assert (Snapshot.truthy data = true) as Ht.
  { unfold Snapshot.truthy. rewrite Hh. simpl. by rewrite !orb_true_r. }
  destruct (compare_holdings_runs today cur data Ht)
    as (wc & new & removed & Hwc & Hnew & Hrem & ->).
  rewrite Hh in *. simpl in *.
  rewrite difference_diag_L in *. rewrite iter_empty in *.
  apply holdings_of_nil in Hnew as ->. apply holdings_of_nil in Hrem as ->.
  assert (wc = []) as ->; [|by rewrite size_empty].
  destruct wc as [|e wc]; [done|]. exfalso.
  assert (e ∈ e :: wc) as He by left.
  rewrite (elem_of_loop _ _ _ e Hwc) in He.
  destruct He as (c & p & Hc & Hp & He).
  assert (p = c) as -> by congruence.
  rewrite try_weights_same in He. by apply elem_of_nil in He.
Qed.


(** X7.  A snapshot file with a name above the one of the day misleads the
    run: the file the run has just written is then the second of the
    sorted names, the rows are compared with themselves, and the comparison
    returned shows no change. *)
Theorem run_daily_check_later_file (clock : Clock.t) (h : row)
    (l : list row) (fs : files) (later : string) :
  is_Some (fs !! later) ->
  is_snapshot_name later = true ->
  String.ltb (holdings_file (Clock.save_date clock)) later = true ->
  (forall name, is_Some (fs !! name) -> is_snapshot_name name = true ->
     name <> later -> name <> holdings_file (Clock.save_date clock) ->
     String.ltb name (holdings_file (Clock.save_date clock)) = true) ->
  exists fs',
    run_daily_check clock (Http.Reply 200 (Http.Object (Some (h :: l)))) fs
    = Some (Some (Comparison.Success
              {| Comparison.date := Clock.compare_date clock;
                 Comparison.previous_date := Clock.save_date clock;
                 Comparison.total_holdings := length (h :: l);
                 Comparison.new_holdings := [];
                 Comparison.removed_holdings := [];
                 Comparison.weight_changes := [];
                 Comparison.significant_changes := 0 |}), fs').
Proof.
  intros Hlater Hsnap Hlt Hothers.
  assert (later <> holdings_file (Clock.save_date clock)) as Hne.
  { intros E. rewrite E in Hlt.
    pose proof (StringFacts.string_ltb_asym _ _ Hlt). congruence. }
  rewrite run_daily_check_fetched, load_previous_file.
  rewrite (previous_file_second _ later
             (holdings_file (Clock.save_date clock))).
  - unfold save_holdings. cbn [snd].
    rewrite lookup_listing, lookup_insert_eq.
    cbn [fmap option_fmap option_map File.load].
    rewrite compare_against_same_rows by done. by eexists.
  - apply elem_of_glob_saved. by right.
  - apply elem_of_glob_saved. by left.
  - done.
  - intros name [->|[? ?]]%elem_of_glob_saved Hn1 Hn2; [done|].
    by apply Hothers.
Qed.
End RunAgain.


(** The two runs of the witness, run: the comparison is the one of the
    sample both times. *)
Example run_twice :
  (fun run1 =>
     (run1.1,
      (fun run2 => run2.1)
        <$> run_daily_check (SI := elements_iteration) Day.night Day.reply
              run1.2))
    <$> run_daily_check (SI := elements_iteration) Day.evening Day.reply
          Day.before
  = Some (Some (Comparison.Success Sample.result),
          Some (Some (Comparison.Success Sample.result))).
Proof. vm_compute. reflexivity. Qed.

Lemma run_daily_check_later_file_witness :
  exists fs',
    run_daily_check (SI := elements_iteration) Day.evening Day.reply
      Day.with_latest
    = Some (Some (Comparison.Success
              {| Comparison.date := "2024-01-02";
                 Comparison.previous_date := "2024-01-02";
                 Comparison.total_holdings := 2;
                 Comparison.new_holdings := [];
                 Comparison.removed_holdings := [];
                 Comparison.weight_changes := [];
                 Comparison.significant_changes := 0 |}), fs').
Proof.
  apply (run_daily_check_later_file (SI := elements_iteration) Day.evening
           ["AAPL"; "Apple Inc"; "5.02"] [["GOOG"; "Alphabet"; "3.0"]]
           Day.with_latest "holdings_latest.json").
  - vm_compute. eauto.
  - reflexivity.
  - reflexivity.
  - intros name [f Hf] Hs Hn1 Hn2. unfold Day.with_latest, Day.before in Hf.
    rewrite lookup_insert_ne in Hf by done.
    destruct (decide (name = "holdings_2024-01-01.json")) as [->|Hn3];
      [reflexivity|].
    rewrite lookup_insert_ne in Hf by done. done.
Defined.

(** ** The differ, beyond the claims *)

Section FieldsFacts.
Context {SI : SetIteration}.

Lemma extract_row_take (info : gmap string Info.t) (h : row) :
  extract_row info (take 3 h) = extract_row info h.
Proof. by destruct h as [|a [|b [|c rest]]]. Qed.

Lemma extract_info_take (l : list row) :
  extract_info (take 3 <$> l) = extract_info l.
Proof.
  unfold extract_info. generalize (∅ : gmap string Info.t).
  induction l as [|h l IH]; intros m; [done|].
  simpl. by rewrite extract_row_take, IH.
Qed.

Lemma truthy_holdings (data : Snapshot.t) (rows : list row) :
  Snapshot.holdings data = Some rows -> Snapshot.truthy data = true.
Proof.
  intros Hh. unfold Snapshot.truthy. rewrite Hh. simpl.
  by rewrite !orb_true_r.
Qed.

(** X8.  Only the first three fields of a row are read: rows cut after
    their third field, on either side, give the same comparison. *)
Theorem fields_after_third_ignored (today : string)
    (cur rows : list row) (d ts : option string) (tc : option nat) :
  compare_holdings today (take 3 <$> cur)
    (Some {| Snapshot.date := d; Snapshot.timestamp := ts;
             Snapshot.holdings := Some (take 3 <$> rows);
             Snapshot.total_count := tc |})
  = compare_holdings today cur
      (Some {| Snapshot.date := d; Snapshot.timestamp := ts;
               Snapshot.holdings := Some rows;
               Snapshot.total_count := tc |}).
Proof.
  unfold compare_holdings.
  rewrite (truthy_holdings _ (take 3 <$> rows)) by done.
  rewrite (truthy_holdings _ rows) by done.
  cbn [Snapshot.holdings Snapshot.date default from_option id negb].
  by rewrite !extract_info_take, length_fmap.
Qed.
End FieldsFacts.

Section RowOrder.
Context {SI : SetIteration}.

Lemma extract_row_comm (m : gmap string Info.t) (x y : row) :
  (forall t, row_ticker x = Some t -> row_ticker y <> Some t) ->
  extract_row (extract_row m y) x = extract_row (extract_row m x) y.
Proof.
  intros Hxy.
  destruct (Nat.lt_ge_cases (length x) 3) as [Hx|Hx];
    [by rewrite !(extract_row_short _ x)|].
  destruct (Nat.lt_ge_cases (length y) 3) as [Hy|Hy];
    [by rewrite !(extract_row_short _ y)|].
  destruct x as [|tx [|nx [|wx rx]]]; simpl in Hx; try lia.
  destruct y as [|ty [|ny [|wy ry]]]; simpl in Hy; try lia.
  rewrite !extract_row_long. apply insert_insert_ne.
  intros ->. by apply (Hxy ty).
Qed.

Lemma extract_rows_permutation (l l' : list row) :
  l ≡ₚ l' -> NoDup (omap row_ticker l) ->
  forall m, foldl extract_row m l = foldl extract_row m l'.
Proof.
  induction 1 as [|x l l' Hp IH|x y l|l l2 l3 Hp1 IH1 Hp2 IH2]; intros Hnd m.
  - done.
  - simpl. apply IH. simpl in Hnd.
    destruct (row_ticker x); [by apply NoDup_cons in Hnd as [_ ?]|done].
  - simpl. f_equal. apply extract_row_comm. intros t Hx Hy.
    simpl in Hnd. rewrite Hx, Hy in Hnd.
    apply NoDup_cons in Hnd as [Hin _]. apply Hin. left.
  - rewrite IH1 by done. apply IH2. by rewrite <- Hp1.
Qed.

End RowOrder.


(** ** Subtraction the other way round *)

Module SubFacts.
Import Float.

Lemma binary_round_aux_opp (s : bool) (m e : Z) (l : location) :
  binary_round_aux prec emax (negb s) m e l
  = SFopp (binary_round_aux prec emax s m e l).
Proof.
  unfold binary_round_aux.
  destruct (shr_fexp prec emax m e l) as [mrs e1].
  destruct (shr_fexp prec emax _ e1 loc_Exact) as [mrs2 e2].
  destruct (shr_m mrs2); try done. by destruct (_ <=? _)%Z.
Qed.

Lemma binary_normalize_opp (m e : Z) :
  m <> 0%Z ->
  binary_normalize prec emax (- m) e false
  = SFopp (binary_normalize prec emax m e false).
Proof.
  destruct m as [|p|p]; [done| |]; intros _; simpl; unfold binary_round;
    destruct (shl_align _ _ _) as [mz ez].
  - apply (binary_round_aux_opp false).
  - apply (binary_round_aux_opp true).
Qed.

Lemma abs_opp (x : float) : abs (SFopp x) = abs x.
Proof. by destruct x. Qed.

(** [y - x] is the opposite of [x - y], or both are the zero [+0.0]. *)
Lemma sub_swap (x y : float) :
  sub y x = SFopp (sub x y)
  \/ (sub x y = S754_zero false /\ sub y x = S754_zero false).
Proof.
  destruct x as [sx|sx| |sx mx ex], y as [sy|sy| |sy my ey];
    try (destruct sx, sy; simpl; by auto); try (simpl; by auto);
    try (destruct sx; simpl; by auto); try (destruct sy; simpl; by auto).
  unfold sub, SFsub. rewrite (Z.min_comm ey ex).
  set (a := cond_Zopp sx _). set (b := cond_Zopp sy _).
  destruct (decide (a - b = 0)%Z) as [E|E].
  - right. replace (b - a)%Z with 0%Z by lia. by rewrite E.
  - left. replace (b - a)%Z with (- (a - b))%Z by lia.
    by apply binary_normalize_opp.
Qed.
End SubFacts.

Section Reverse.
Context {SI : SetIteration}.

Lemma weight_changes_loop_cons (ci pi : gmap string Info.t) (t : string)
    (l : list string) :
  weight_changes_loop ci pi (t :: l)
  = c ← ci !! t; p ← pi !! t;
    rest ← weight_changes_loop ci pi l;
    Some (try_weights t c p ++ rest).
Proof.
  unfold weight_changes_loop. simpl. unfold weight_change.
  destruct (ci !! t) as [c|]; [|done]. destruct (pi !! t) as [p|]; [|done].
  simpl. by destruct (mapM _ l).
Qed.

Lemma try_weights_turned (t : string) (c p : Info.t) :
  Forall2 turned (try_weights t c p) (try_weights t p c).
Proof.
  unfold try_weights.
  destruct (weight_float (weight_str (Info.weight c))) as [cw|];
    destruct (weight_float (weight_str (Info.weight p))) as [pw|];
    try constructor.
  destruct (SubFacts.sub_swap cw pw) as [E|[E1 E2]].
  - rewrite E, SubFacts.abs_opp.
    destruct (Float.gtb _ _); repeat constructor.
  - rewrite E1, E2. constructor.
Qed.

Lemma loop_turned (ci pi : gmap string Info.t) (l : list string)
    (wc wc' : list Change.t) :
  weight_changes_loop ci pi l = Some wc ->
  weight_changes_loop pi ci l = Some wc' ->
  Forall2 turned wc wc'.
Proof.
  revert wc wc'. induction l as [|t l IH]; intros wc wc'.
  - intros [= <-] [= <-]. constructor.
  - rewrite !weight_changes_loop_cons.
    destruct (ci !! t) as [c|]; [|done]. destruct (pi !! t) as [p|]; [|done].
    simpl.
    destruct (weight_changes_loop ci pi l) as [k|]; [|done].
    destruct (weight_changes_loop pi ci l) as [k'|]; [|done].
    simpl. intros [= <-] [= <-].
    apply Forall2_app; [apply try_weights_turned|by apply IH].
Qed.

Lemma turned_key (e e' : Change.t) : turned e e' -> Change.key e = Change.key e'.
Proof.
  intros (_ & _ & _ & E). unfold Change.key.
  by rewrite E, SubFacts.abs_opp.
Qed.

(** Sorting two lists related entry by entry, keys equal: the sorted lists
    are related the same way. *)
Lemma sorted_reverse_Forall2 {A K : Type} (key : A -> K)
    (lt : K -> K -> bool) (R : A -> A -> Prop) (l l' : list A) :
  (forall x x', R x x' -> key x = key x') ->
  Forall2 R l l' ->
  Forall2 R (sorted_reverse key lt l) (sorted_reverse key lt l').
Proof.
  intros Hkey. induction 1 as [|x x' l l' Hx _ IH]; [constructor|].
  simpl. revert IH.
  generalize (sorted_reverse key lt l) (sorted_reverse key lt l').
  induction 1 as [|y y' k k' Hy Hk IHk]; simpl; [by repeat constructor|].
  rewrite <- (Hkey x x' Hx), <- (Hkey y y' Hy).
  destruct (lt (key x) (key y)); by repeat constructor.
Qed.

End Reverse.


(** ** What a success result always has *)

Section Invariants.
Context {SI : SetIteration}.

Lemma loop_entries (ci pi : gmap string Info.t) (l : list string)
    (wc : list Change.t) :
  weight_changes_loop ci pi l = Some wc -> wc = flat_map (entries_of ci pi) l.
Proof.
  revert wc. induction l as [|t l IH]; intros wc; [by intros [= <-]|].
  rewrite weight_changes_loop_cons. cbn [flat_map]. unfold entries_of at 1.
  destruct (ci !! t) as [c|]; [|done]. destruct (pi !! t) as [p|]; [|done].
  simpl. destruct (weight_changes_loop ci pi l) as [k|]; [|done].
  simpl. intros [= <-]. by rewrite (IH k).
Qed.

Lemma holdings_of_map (info : gmap string Info.t) (l : list string)
    (hs : list Holding.t) :
  holdings_of info l = Some hs -> hs = map (holding_of info) l.
Proof.
  intros Hhs%mapM_Some_1.
  induction Hhs as [|t h l hs Hth _ IH]; [done|].
  simpl. rewrite <- IH. f_equal. unfold holding_of.
  destruct (info !! t) as [i|]; [|done]. by injection Hth as <-.
Qed.

Lemma entries_of_tickers (ci pi : gmap string Info.t) (t : string) :
  map Change.ticker (entries_of ci pi t) `sublist_of` [t].
Proof.
  unfold entries_of, try_weights.
  destruct (ci !! t) as [c|]; [|apply sublist_nil_l].
  destruct (pi !! t) as [p|]; [|apply sublist_nil_l].
  destruct (weight_float _); [|apply sublist_nil_l].
  destruct (weight_float _); [|apply sublist_nil_l].
  destruct (Float.gtb _ _); [done|apply sublist_nil_l].
Qed.

Lemma flat_map_tickers (ci pi : gmap string Info.t) (l : list string) :
  map Change.ticker (flat_map (entries_of ci pi) l) `sublist_of` l.
Proof.
  induction l as [|t l IH]; [done|].
  cbn [flat_map]. rewrite map_app. change (t :: l) with ([t] ++ l).
  apply sublist_app; [apply entries_of_tickers|done].
Qed.

Lemma elem_of_entries (ci pi : gmap string Info.t) (t : string)
    (e : Change.t) :
  e ∈ entries_of ci pi t ->
  Change.ticker e = t /\ is_Some (ci !! t) /\ is_Some (pi !! t)
  /\ Float.gtb (Float.abs (Change.change e)) Float.threshold = true
  /\ Change.change e
     = Float.sub (Change.current_weight e) (Change.previous_weight e).
Proof.
  unfold entries_of.
  destruct (ci !! t) as [c|]; [|by intros ?%elem_of_nil].
  destruct (pi !! t) as [p|]; [|by intros ?%elem_of_nil].
  intros (cw & pw & _ & _ & Hgt & ->)%elem_of_try_weights. simpl.
  repeat split; eauto.
Qed.

Lemma size_extract_rows (m : gmap string Info.t) (l : list row) :
  size (dom (foldl extract_row m l)) <= size (dom m) + length l.
Proof.
  revert m. induction l as [|h l IH]; intros m; simpl; [lia|].
  etrans; [apply IH|].
  assert (size (dom (extract_row m h)) <= S (size (dom m))); [|lia].
  unfold extract_row. destruct (3 <=? length h)%nat; [|lia].
  rewrite dom_insert_L, size_union_alt, size_singleton.
  pose proof (subseteq_size (dom m ∖ {[h !!! 0]}) (dom m)
                (subseteq_difference_l _ _ _ (reflexivity _))). lia.
Qed.

(** X12.  A success result, whatever the rows: [significant_changes] is
    the number of entries of the three lists together; [weight_changes]
    has at most one entry for a ticker; each of its entries has a change
    above the threshold in absolute value, which is the current weight less
    the previous one; none of its tickers is among the new or the removed
    holdings; and the new holdings and the weight changes together are no
    more than the current rows. *)
Theorem success_invariants (today : string) (cur : list row)
    (prev : option Snapshot.t) (r : Comparison.success) :
  compare_holdings today cur prev = Some (Comparison.Success r) ->
  let new := Comparison.new_holdings r in
  let removed := Comparison.removed_holdings r in
  let changes := Comparison.weight_changes r in
  Comparison.significant_changes r
  = length new + length removed + length changes
  /\ NoDup (map Change.ticker changes)
  /\ (forall e, e ∈ changes ->
        Float.gtb (Float.abs (Change.change e)) Float.threshold = true
        /\ Change.change e
           = Float.sub (Change.current_weight e) (Change.previous_weight e))
  /\ (forall e h, e ∈ changes -> h ∈ new ++ removed ->
        Change.ticker e <> Holding.ticker h)
  /\ length new + length changes <= Comparison.total_holdings r.
Proof.
  intros Hr.
  destruct (compare_holdings_success_inv _ _ _ _ Hr) as (data & -> & _).
  destruct (holdings_lists _ _ _ _ Hr) as (Hin & Hout & _).
  destruct (success_parts _ _ _ _ Hr)
    as (wc & new & removed & Hwc & Hnew & Hrem & ->).
  cbn [Comparison.new_holdings Comparison.removed_holdings
       Comparison.weight_changes Comparison.significant_changes
       Comparison.total_holdings] in *.
  set (ci := extract_info cur) in *.
  set (pi := extract_info (default [] (Snapshot.holdings data))) in *.
  apply loop_entries in Hwc as ->.
  apply length_mapM in Hnew as Hln, Hrem as Hlr.
  rewrite length_iter in Hln, Hlr.
  pose proof (flat_map_tickers ci pi (iter (dom ci ∩ dom pi))) as Hsub.
  assert (forall e,
            e ∈ sorted_reverse Change.key Float.ltb
                  (flat_map (entries_of ci pi) (iter (dom ci ∩ dom pi))) ->
            e ∈ entries_of ci pi (Change.ticker e)) as Hentry.
  { intros e. rewrite sorted_reverse_perm, list_elem_of_In, in_flat_map.
    intros (t & _ & He%list_elem_of_In).
    by destruct (elem_of_entries _ _ _ _ He) as [-> _]. }
  split; [|split; [|split; [|split]]].
  - rewrite sorted_reverse_perm. lia.
  - rewrite sorted_reverse_perm.
    eapply sublist_NoDup; [apply NoDup_iter|exact Hsub].
  - intros e He%Hentry. by destruct (elem_of_entries _ _ _ _ He) as (_&_&_&?).
  - intros e h He%Hentry Hh E.
    destruct (elem_of_entries _ _ _ _ He) as (_ & [c Hc] & [p Hp] & _).
    rewrite E in Hc, Hp.
    apply elem_of_app in Hh as [Hh|Hh].
    + assert (Holding.ticker h ∈ map Holding.ticker new) as [_ Hn]%Hin
        by (by apply list_elem_of_fmap_2).
      congruence.
    + assert (Holding.ticker h ∈ map Holding.ticker removed) as [_ Hn]%Hout
        by (by apply list_elem_of_fmap_2).
      congruence.
  - rewrite sorted_reverse_perm.
    apply sublist_length in Hsub. rewrite length_map, length_iter in Hsub.
    pose proof (size_extract_rows ∅ cur) as Hsize.
    rewrite dom_empty_L, size_empty in Hsize. fold (extract_info cur) in Hsize.
    fold ci in Hsize.
    pose proof (size_difference_alt (dom ci) (dom pi)).
    pose proof (subseteq_size (dom ci ∩ dom pi) (dom ci)
                  (intersection_subseteq_l _ _)).
    lia.
Qed.
End Invariants.

Lemma success_invariants_witness :
  Comparison.significant_changes Dozen.result
  = length (Comparison.new_holdings Dozen.result)
    + length (Comparison.removed_holdings Dozen.result)
    + length (Comparison.weight_changes Dozen.result)
  /\ NoDup (map Change.ticker (Comparison.weight_changes Dozen.result)).
Proof.
  destruct (success_invariants (SI := elements_iteration) Sample.today
              Dozen.current (Some Dozen.previous) Dozen.result
              ltac:(vm_compute; reflexivity)) as (H1 & H2 & _).
  split; [exact H1|exact H2].
Defined.

Section Orders.

(** X13.  The order in which Python goes through a set decides the order
    of the lists and nothing else: two comparisons of the same rows under
    two orders have the same dates and counts, and each list of one is a
    rearrangement of the list of the other. *)
Theorem iteration_order_rearranges (SI1 SI2 : SetIteration) (today : string)
    (cur : list row) (prev : option Snapshot.t)
    (r1 r2 : Comparison.success) :
  compare_holdings (SI := SI1) today cur prev = Some (Comparison.Success r1) ->
  compare_holdings (SI := SI2) today cur prev = Some (Comparison.Success r2) ->
  Comparison.date r1 = Comparison.date r2
  /\ Comparison.previous_date r1 = Comparison.previous_date r2
  /\ Comparison.total_holdings r1 = Comparison.total_holdings r2
  /\ Comparison.significant_changes r1 = Comparison.significant_changes r2
  /\ Comparison.new_holdings r1 ≡ₚ Comparison.new_holdings r2
  /\ Comparison.removed_holdings r1 ≡ₚ Comparison.removed_holdings r2
  /\ Comparison.weight_changes r1 ≡ₚ Comparison.weight_changes r2.
Proof.
  intros H1 H2.
  destruct (compare_holdings_success_inv _ _ _ _ H1) as (data & -> & _).
  destruct (success_parts _ _ _ _ H1)
    as (wc1 & new1 & rem1 & Hwc1 & Hnew1 & Hrem1 & ->).
  destruct (success_parts _ _ _ _ H2)
    as (wc2 & new2 & rem2 & Hwc2 & Hnew2 & Hrem2 & ->).
  cbn [Comparison.date Comparison.previous_date Comparison.total_holdings
       Comparison.new_holdings Comparison.removed_holdings
       Comparison.weight_changes Comparison.significant_changes].
  apply loop_entries in Hwc1 as ->. apply loop_entries in Hwc2 as ->.
  apply holdings_of_map in Hnew1 as ->. apply holdings_of_map in Hnew2 as ->.
  apply holdings_of_map in Hrem1 as ->. apply holdings_of_map in Hrem2 as ->.
  assert (forall X, iter (SetIteration := SI1) X ≡ₚ iter (SetIteration := SI2) X)
    as Hiter by (intros X; by rewrite !iter_elements).
  assert (forall X f,
            flat_map f (iter (SetIteration := SI1) X)
            ≡ₚ flat_map (B := Change.t) f (iter (SetIteration := SI2) X))
    as Hflat by (intros X f; apply Permutation_flat_map, Hiter).
  repeat split; try done.
  - f_equal. by rewrite (Hflat _ _).
  - by apply Permutation_map.
  - by apply Permutation_map.
  - by rewrite !sorted_reverse_perm.
Qed.
End Orders.

Lemma iteration_order_rearranges_witness :
  Comparison.weight_changes (Ties.result elements_iteration)
  ≡ₚ Comparison.weight_changes (Ties.result reverse_iteration)
  /\ map Change.ticker
       (Comparison.weight_changes (Ties.result elements_iteration))
     <> map Change.ticker
          (Comparison.weight_changes (Ties.result reverse_iteration)).
Proof.
  split; [|vm_compute; discriminate].
  apply (iteration_order_rearranges elements_iteration reverse_iteration
           Sample.today Ties.current (Some Ties.previous));
    vm_compute; reflexivity.
Defined.

Section Edges.
Context {SI : SetIteration}.

(** X11.  Previous data without rows (the key ['holdings'] missing from
    the object, or its list empty): every ticker of the current mapping is
    a new holding, each once, nothing is removed and no weight has
    changed. *)
Theorem no_previous_rows (today : string) (cur : list row)
    (data : Snapshot.t) :
  Snapshot.truthy data = true ->
  default [] (Snapshot.holdings data) = [] ->
  exists new,
    compare_holdings today cur (Some data)
    = Some (Comparison.Success
        {| Comparison.date := today;
           Comparison.previous_date := default "Unknown" (Snapshot.date data);
           Comparison.total_holdings := length cur;
           Comparison.new_holdings := new;
           Comparison.removed_holdings := [];
           Comparison.weight_changes := [];
           Comparison.significant_changes := length new |})
    /\ map Holding.ticker new ≡ₚ elements (dom (extract_info cur))
    /\ forall h, h ∈ new ->
         Info.name <$> extract_info cur !! Holding.ticker h
         = Some (Holding.name h).
Proof.
  intros Ht Hempty.
  destruct (compare_holdings_runs today cur data Ht)
    as (wc & new & removed & Hwc & Hnew & Hrem & ->).
  rewrite Hempty in *. change (extract_info []) with (∅ : gmap string Info.t) in *.
  rewrite dom_empty_L in *.
  rewrite difference_empty_L, intersection_empty_r_L in *.
  assert ((∅ : gset string) ∖ dom (extract_info cur) = ∅) as E
    by apply empty_difference_L.
  rewrite E in *. rewrite iter_empty in *.
  injection Hwc as <-. apply holdings_of_nil in Hrem as ->.
  exists new. apply length_mapM in Hnew as Hlen. rewrite length_iter in Hlen.
  destruct (holdings_of_tickers _ _ _ Hnew) as [Htick Hnames].
  split; [|split].
  - rewrite Hlen, (size_empty (C := gset string)).
    cbn [sorted_reverse length]. by rewrite !Nat.add_0_r.
  - by rewrite Htick, iter_elements.
  - intros h [i [-> ->]]%Hnames. done.
Qed.
End Edges.

Lemma no_previous_rows_witness :
  exists new,
    compare_holdings (SI := elements_iteration) Sample.today Sample.current
      (Some {| Snapshot.date := Some "2024-01-01";
               Snapshot.timestamp := None;
               Snapshot.holdings := None;
               Snapshot.total_count := None |})
    = Some (Comparison.Success
        {| Comparison.date := Sample.today;
           Comparison.previous_date := "2024-01-01";
           Comparison.total_holdings := 2;
           Comparison.new_holdings := new;
           Comparison.removed_holdings := [];
           Comparison.weight_changes := [];
           Comparison.significant_changes := length new |})
    /\ map Holding.ticker new ≡ₚ elements (dom (extract_info Sample.current))
    /\ forall h, h ∈ new ->
         Info.name <$> extract_info Sample.current !! Holding.ticker h
         = Some (Holding.name h).
Proof.
  apply (no_previous_rows (SI := elements_iteration)); reflexivity.
Defined.

(** ** The holdings a report lists *)

Section Listed.
Import Text Report.
Variable is_line : string -> bool.
Variable mark : string.
Hypothesis is_line_nl : forall s, is_line (nl ++ s)%string = false.
Hypothesis is_line_name : forall s, is_line ("    " ++ s)%string = false.

Lemma filter_none (l : list string) :
  Forall (fun line => is_line line = false) l ->
  filter (fun line => is_line line = true) l = [].
Proof.
  induction 1 as [|x l Hx _ IH]; [done|].
  rewrite filter_cons, IH. destruct (decide _); [congruence|done].
Qed.

Lemma holding_lines_listed (h : Holding.t) :
  filter (fun line => is_line line = true) (holding_lines mark h)
  = filter (fun line => is_line line = true)
      [("  " ++ mark ++ " " ++ Holding.ticker h)%string].
Proof.
  unfold holding_lines.
  destruct (Holding.name h) as [|a name]; [done|].
  rewrite !filter_cons, !filter_nil, is_line_name.
  by destruct (decide (false = true)).
Qed.

Lemma weight_block_unlisted (l : list Change.t) :
  is_line thin_rule = false -> is_line weight_title = false ->
  Forall (fun line => is_line line = false) (weight_block l).
Proof.
  intros Hrule Htitle. destruct l as [|c l]; [constructor|].
  unfold weight_block. generalize (take 10 (c :: l)). intros k.
  repeat (apply Forall_app; split).
  - repeat constructor; [apply is_line_nl|done..].
  - induction k as [|e k IH]; [constructor|]. cbn [map concat].
    apply Forall_app. split; [|done]. unfold change_lines, change_head.
    repeat (apply Forall_app; split).
    + repeat constructor. apply is_line_nl.
    + destruct (Change.name e); repeat constructor. apply is_line_name.
    + repeat constructor. apply is_line_name.
  - destruct (10 <? _)%nat; repeat constructor. apply is_line_nl.
Qed.
End Listed.

Section ListedHoldings.
Import Text Report.

Lemma new_lines_of (l : list Holding.t) :
  filter (fun line => is_new_line line = true)
    (concat (map (holding_lines "✓") l))
  = map new_line l.
Proof.
  induction l as [|h l IH]; [done|]. cbn [map concat].
  rewrite filter_app, IH.
  by rewrite (holding_lines_listed is_new_line "✓" (fun s => eq_refl)).
Qed.

Lemma removed_lines_of (l : list Holding.t) :
  filter (fun line => is_removed_line line = true)
    (concat (map (holding_lines "✗") l))
  = map removed_line l.
Proof.
  induction l as [|h l IH]; [done|]. cbn [map concat].
  rewrite filter_app, IH.
  by rewrite (holding_lines_listed is_removed_line "✗" (fun s => eq_refl)).
Qed.

Lemma removed_lines_not_new (l : list Holding.t) :
  filter (fun line => is_new_line line = true)
    (concat (map (holding_lines "✗") l))
  = [].
Proof.
  induction l as [|h l IH]; [done|]. cbn [map concat].
  rewrite filter_app, IH.
  by rewrite (holding_lines_listed is_new_line "✗" (fun s => eq_refl)).
Qed.

Lemma new_lines_not_removed (l : list Holding.t) :
  filter (fun line => is_removed_line line = true)
    (concat (map (holding_lines "✓") l))
  = [].
Proof.
  induction l as [|h l IH]; [done|]. cbn [map concat].
  rewrite filter_app, IH.
  by rewrite (holding_lines_listed is_removed_line "✓" (fun s => eq_refl)).
Qed.

End ListedHoldings.

(** ** Two days *)

Section NextDay.
Context {SI : SetIteration}.

(** X15.  Two runs on two days: when the first run is on a day whose
    snapshot file name is above those of the snapshot files already there
    and below the one of the second day, the second run compares the rows
    it fetched with the rows the first run fetched, and its result is a
    success result whose previous date is the day of the first run. *)
Theorem run_daily_check_next_day (c1 c2 : Clock.t) (h1 : row)
    (l1 : list row) (h2 : row) (l2 : list row) (fs fs1 : files)
    (r1 : option Comparison.t) :
  run_daily_check c1 (Http.Reply 200 (Http.Object (Some (h1 :: l1)))) fs
  = Some (r1, fs1) ->
  String.ltb (holdings_file (Clock.save_date c1))
    (holdings_file (Clock.save_date c2)) = true ->
  (forall name, is_Some (fs !! name) -> is_snapshot_name name = true ->
     name <> holdings_file (Clock.save_date c1) ->
     name <> holdings_file (Clock.save_date c2) ->
     String.ltb name (holdings_file (Clock.save_date c1)) = true) ->
  exists r fs2,
    run_daily_check c2 (Http.Reply 200 (Http.Object (Some (h2 :: l2)))) fs1
    = Some (Some (Comparison.Success r), fs2)
    /\ compare_holdings (Clock.compare_date c2) (h2 :: l2)
         (Some {| Snapshot.date := Some (Clock.save_date c1);
                  Snapshot.timestamp := Some (Clock.save_timestamp c1);
                  Snapshot.holdings := Some (h1 :: l1);
                  Snapshot.total_count := Some (length (h1 :: l1)) |})
       = Some (Comparison.Success r)
    /\ Comparison.previous_date r = Clock.save_date c1.
Proof.
  intros Hrun Hlt Hothers.
  set (hf1 := holdings_file (Clock.save_date c1)) in *.
  set (hf2 := holdings_file (Clock.save_date c2)) in *.
  set (data := {| Snapshot.date := Some (Clock.save_date c1);
                  Snapshot.timestamp := Some (Clock.save_timestamp c1);
                  Snapshot.holdings := Some (h1 :: l1);
                  Snapshot.total_count := Some (length (h1 :: l1)) |}).
  assert (hf1 <> hf2) as Hne.
  { intros E. rewrite E in Hlt.
    pose proof (StringFacts.string_ltb_asym _ _ Hlt). congruence. }
  rewrite run_daily_check_fetched in Hrun.
  destruct (compare_holdings_total (Clock.compare_date c1) (h1 :: l1)
              (load_previous_holdings
                 (listing (save_holdings (Clock.save_date c1)
                             (Clock.save_timestamp c1) (h1 :: l1) fs).2)))
    as [c Hc].
  rewrite Hc in Hrun. cbn [mbind option_bind] in Hrun.
  injection Hrun as _ <-.
  change (S (length l1)) with (length (h1 :: l1)). fold hf1. fold data.
  set (fs1 := <[report_file (Clock.report_date c1) := _]> _).
  assert (fs1 !! hf1 = Some (File.Json data)) as Hhf1.
  { subst fs1. rewrite lookup_insert_ne
      by apply report_file_not_holdings_file.
    apply lookup_insert_eq. }
  assert (load_previous_holdings
            (listing (save_holdings (Clock.save_date c2)
                        (Clock.save_timestamp c2) (h2 :: l2) fs1).2)
          = Some data) as Hload.
  { rewrite load_previous_file.
    rewrite (previous_file_second _ hf2 hf1).
    - rewrite lookup_listing. unfold save_holdings. cbn [snd]. fold hf2.
      rewrite lookup_insert_ne by done. by rewrite Hhf1.
    - apply elem_of_glob_saved. by left.
    - apply elem_of_glob_saved. right. split; [by rewrite Hhf1|].
      apply NameFacts.holdings_file_snapshot.
    - done.
    - intros name [->|[Hin Hs]]%elem_of_glob_saved Hn2 Hn1; [done|].
      apply Hothers; try done. subst fs1.
      rewrite lookup_insert_ne in Hin.
      + by rewrite lookup_insert_ne in Hin.
      + intros <-. by rewrite NameFacts.report_file_no_snapshot in Hs. }
  rewrite run_daily_check_fetched, Hload.
  destruct (compare_holdings_runs (Clock.compare_date c2) (h2 :: l2) data
              eq_refl) as (wc & new & removed & _ & _ & _ & Hcmp).
  rewrite Hcmp. cbn [mbind option_bind]. by eexists _, _.
Qed.
End NextDay.

Lemma run_daily_check_next_day_witness :
  exists r1 fs1 r fs2,
    run_daily_check (SI := elements_iteration)
      {| Clock.save_date := "2024-01-01";
         Clock.save_timestamp := "2024-01-01T21:30:00";
         Clock.compare_date := "2024-01-01";
         Clock.generated := "2024-01-01 21:30:01 UTC";
         Clock.report_date := "2024-01-01" |}
      (Http.Reply 200
         (Http.Object
            (Some [["AAPL"; "Apple Computer"; "5.0"];
                   ["MSFT"; "Microsoft"; "4.0"]])))
      (<["holdings_2023-12-31.json" := File.Text "damaged"]> ∅)
    = Some (Some r1, fs1)
    /\ run_daily_check (SI := elements_iteration) Day.evening Day.reply fs1
       = Some (Some (Comparison.Success r), fs2)
    /\ Comparison.previous_date r = "2024-01-01".
Proof.
  destruct (run_daily_check_fetched_Some (SI := elements_iteration)
              {| Clock.save_date := "2024-01-01";
                 Clock.save_timestamp := "2024-01-01T21:30:00";
                 Clock.compare_date := "2024-01-01";
                 Clock.generated := "2024-01-01 21:30:01 UTC";
                 Clock.report_date := "2024-01-01" |}
              ["AAPL"; "Apple Computer"; "5.0"]
              [["MSFT"; "Microsoft"; "4.0"]]
              (<["holdings_2023-12-31.json" := File.Text "damaged"]> ∅))
    as (r1 & fs1 & Hrun1).
  destruct (run_daily_check_next_day (SI := elements_iteration) _
              Day.evening _ _
              ["AAPL"; "Apple Inc"; "5.02"]
              [["GOOG"; "Alphabet"; "3.0"]]
              _ _ _ Hrun1 eq_refl)
    as (r & fs2 & Hrun & _ & Hdate).
  - intros name [f Hf] Hs Hn1 Hn2.
    destruct (decide (name = "holdings_2023-12-31.json")) as [->|Hn3];
      [reflexivity|].
    rewrite lookup_insert_ne in Hf by done. done.
  - exists r1, fs1, r, fs2. exact (conj Hrun1 (conj Hrun Hdate)).
Defined.
